(** * GPU tensor-operation kernels of ngraph: a shallow embedding

    This development embeds [ngraph/transformers/gpu/tensor_ops.py]: the
    kernel objects that transpose, fill, send, receive and assign tensors,
    and their "flex" (dynamic fixed point) variants.

    Conventions of the embedding.

    - Python and numpy numbers are the rationals they denote ([Q]); integers
      are [Z], embedded with [inject_Z].  Arithmetic is exact: the rounding of
      binary floating point is outside this development.
    - A Python call that may raise returns a [result].
    - An attribute that [bind_buffers] overwrites with an object of another
      class (a [TensorDescription] replaced by the allocated tensor) is a
      [slot].
    - Classes and functions that the file imports from elsewhere
      ([TensorDescription], the device tensor, [pointer_from_td],
      [_get_copy_transpose_kernel], the random generator, the queue) are
      gathered in the [Runtime] interface or modelled next to their first
      use, each with a note.
    - The base class [GPUKernel] is not among the sources.  Its constructor
      and its [bind_buffers], which the methods here call, are taken to touch
      none of the attributes modelled; the [transformer] argument, which only
      gives access to the runtime, is the [Runtime] instance.
    - A method that calls one method of a tensor returns that call as a
      [device_call]; [perform] gives the calls the spec defines their effect
      on the content of the tensor. *)

From Stdlib Require Import ZArith QArith Lia Lqa String List.
From stdpp Require Import base option list gmap strings.

Open Scope Z_scope.

(** ** Python results *)

Inductive exn : Type :=
  | ZeroDivisionError
  | AttributeError (attr : string)
  | KeyError (key : string)
  | IndexError
  | ValueError.

Inductive result (A : Type) : Type :=
  | Ok (a : A)
  | Raise (e : exn).
Arguments Ok {A} a.
Arguments Raise {A} e.

#[export] Instance result_ret : MRet result := fun _ a => Ok a.

#[export] Instance result_bind : MBind result := fun _ _ f r =>
  match r with
  | Ok a => f a
  | Raise e => Raise e
  end.

Definition is_error {A : Type} (r : result A) : Prop :=
  match r with
  | Ok _ => False
  | Raise _ => True
  end.

(** ** Python numbers *)

(** [a / b] under [from __future__ import division]. *)
Definition py_truediv (a b : Q) : result Q :=
  if Qeq_bool b 0 then Raise ZeroDivisionError else Ok (a / b)%Q.

(** [int(x)]: the integer part of [x], the fraction dropped. *)
Definition py_int (x : Q) : Z := Z.quot (Qnum x) (Zpos (Qden x)).

(** [abs(n)] on an integer. *)
Definition py_abs (n : Z) : Z := Z.abs n.


(** ** Tensors *)

Inductive np_dtype : Type :=
  | float32
  | float64
  | int8
  | int16
  | int32.

Definition np_dtype_eqb (a b : np_dtype) : bool :=
  match a, b with
  | float32, float32 | float64, float64 | int8, int8
  | int16, int16 | int32, int32 => true
  | _, _ => false
  end.

(** Modelled from the spec: [TensorDescription] (ngraph.op_graph.axes) is not
    among the sources.  A descriptor has a symbolic identity, an element
    type, a shape and one signed stride per dimension. *)
Record TensorDescription : Type := {
  td_name : nat;
  td_dtype : np_dtype;
  td_shape : list nat;
  td_strides : list Z
}.

(** A host array: what [get] returns and what travels through a queue.  A
    Python scalar is the array of shape [()] with one element. *)
Record ndarray : Type := {
  a_shape : list nat;
  a_data : list Q
}.

Definition scalar (v : Q) : ndarray := {| a_shape := []; a_data := [v] |}.

(** Modelled from the spec: the device tensor class is not among the
    sources.  A tensor is its element type, shape and strides, and its
    logical content in row-major order.  The wrapper object and the array it
    wraps ([.tensor]) are one buffer, hence one record. *)
Record GPUTensor : Type := {
  t_dtype : np_dtype;
  t_shape : list nat;
  t_strides : list Z;
  t_data : list Q
}.

Definition with_data (t : GPUTensor) (d : list Q) : GPUTensor :=
  {| t_dtype := t_dtype t; t_shape := t_shape t;
     t_strides := t_strides t; t_data := d |}.

(** [shape == ()]. *)
Definition shape_is_unit (s : list nat) : bool :=
  match s with
  | [] => true
  | _ :: _ => false
  end.

(** An index expression of [__setitem__]; [None] stands for the whole
    tensor. *)
Record slice : Type := {
  sl_start : option Z;
  sl_stop : option Z;
  sl_step : option Z
}.

(** A Python value handed to a tensor method. *)
Inductive pyval : Type :=
  | VNum (v : Q)
  | VArray (a : ndarray)
  | VTensor (t : GPUTensor).

(** An attribute that holds a [TensorDescription] until [bind_buffers]
    replaces it with the allocated object. *)
Inductive slot (A : Type) : Type :=
  | Symbolic (td : TensorDescription)
  | Bound (a : A).
Arguments Symbolic {A} td.
Arguments Bound {A} a.

(** Reading an attribute of the bound object; on a kernel that was not bound
    the attribute is missing. *)
Definition bound {A : Type} (attr : string) (s : slot A) : result A :=
  match s with
  | Bound a => Ok a
  | Symbolic _ => Raise (AttributeError attr)
  end.

(** ** Kernel handles and parameter lists *)

(** An entry of a kernel's parameter list: a descriptor not yet resolved, a
    device address, or a number (a stride or a scalar argument). *)
Inductive param : Type :=
  | PDescription (td : TensorDescription)
  | PAddress (addr : Z)
  | PInt (n : Z).

(** [isinstance(p, TensorDescription)]. *)
Definition is_TensorDescription (p : param) : bool :=
  match p with
  | PDescription _ => true
  | _ => false
  end.

(** Modelled from the spec: the compiled kernel object is not among the
    sources.  It carries its launch geometry and its own scalar and
    structural arguments. *)
Record KernelHandle : Type := {
  k_key : np_dtype * list nat * list nat;
  k_grid : list nat;
  k_block : list nat;
  k_args : list param
}.

(** Modelled from the spec: [TensorDescriptionWrapper] (float_ew2) is not
    among the sources.  It exposes the wrapped descriptor and the element
    type, shape and strides derived from it. *)
Record Wrapper : Type := {
  w_td : TensorDescription;
  w_dtype : np_dtype;
  w_shape : list nat;
  w_strides : list Z
}.

(** Modelled from the spec: a flex element type has fixed clip bounds, the
    largest and the smallest value of its integer storage type. *)
Record FlexDType : Type := {
  pclip : Z;
  nclip : Z
}.

(** Modelled from the spec: a flex entry ties a tensor to its scale, its
    flex element type and the identity the scale manager knows it by. *)
Record FlexEntry : Type := {
  flex_id : nat;
  fe_scale : Q;
  fe_dtype : FlexDType
}.

(** What the kernels import and do not define.  [td_value] is the [value]
    attribute of a descriptor (the tensor allocated for it) and
    [td_flex_entry] the flex entry of that tensor; [pcg_uniform g i] and
    [pcg_normal g i] are the [i]-th raw sample the generator in state [g]
    writes, [pcg_next g n] its state after [n] samples; [np_cast d] is the
    conversion of a number to element type [d]. *)
Class Runtime : Type := {
  pointer_from_td : TensorDescription -> Z;
  _get_copy_transpose_kernel : np_dtype -> list nat -> list nat -> KernelHandle;
  TensorDescriptionWrapper : TensorDescription -> option nat -> Wrapper;
  td_value : TensorDescription -> GPUTensor;
  td_flex_entry : TensorDescription -> FlexEntry;
  pcg_state : Type;
  pcg_uniform : pcg_state -> nat -> Q;
  pcg_normal : pcg_state -> nat -> Q;
  pcg_next : pcg_state -> nat -> pcg_state;
  np_cast : np_dtype -> Q -> Q
}.

(** A call a kernel issues on the device when it executes:
    [k.prepared_async_call(grid, block, None, *params)] on the default
    stream, [t.fill(x)] and [t.__setitem__(item, x)]. *)
Inductive device_call : Type :=
  | prepared_async_call (k : KernelHandle) (grid block : list nat) (params : list param)
  | fill (t : GPUTensor) (x : pyval)
  | setitem (t : GPUTensor) (item : option slice) (x : pyval).

(** [np.min(l)]; numpy raises on an empty sequence. *)
Definition np_min (l : list Z) : result Z :=
  match l with
  | [] => Raise ValueError
  | x :: l' => Ok (foldl Z.min x l')
  end.

Section Kernels.
Context `{Runtime}.

Definition get_dimshuffle (dtype : np_dtype) (shape axes : list nat)
    (src dst : Wrapper) : KernelHandle * list param :=
  let kernel := _get_copy_transpose_kernel dtype shape axes in
  let params := [PDescription (w_td dst); PDescription (w_td src)] ++ k_args kernel in
  let params := params ++ map PInt (w_strides src) ++ map PInt (w_strides dst) in
  (kernel, params).

(** One round of the loop of [bind_buffers]:
    [if isinstance(params[index], TensorDescription):
         params[index] = pointer_from_td(params[index])]. *)
Definition bind_param_at (params : list param) (index : nat) : list param :=
  match params !! index with
  | Some (PDescription td) => <[index := PAddress (pointer_from_td td)]> params
  | _ => params
  end.

(** [for index in range(len(params)): ...]. *)
Definition bind_params (params : list param) : list param :=
  foldl bind_param_at params (seq 0 (length params)).

(** What the loop does to one entry. *)
Definition resolve (p : param) : param :=
  match p with
  | PDescription td => PAddress (pointer_from_td td)
  | _ => p
  end.

(** [if isinstance(x, TensorDescription): x = x.value]. *)
Definition bind_value (s : slot GPUTensor) : slot GPUTensor :=
  match s with
  | Symbolic td => Bound (td_value td)
  | Bound a => Bound a
  end.

(** [x = x.value.tensor], on a descriptor. *)
Definition bind_tensor (s : slot GPUTensor) : result (slot GPUTensor) :=
  match s with
  | Symbolic td => Ok (Bound (td_value td))
  | Bound _ => Raise (AttributeError "value")
  end.

End Kernels.

(** ** Tensor methods *)

(** Modelled from the spec: [t.get(None)] of the device tensor, which is not
    among the sources, reads the whole tensor into a host array. *)
Definition tensor_get (t : GPUTensor) : ndarray :=
  {| a_shape := t_shape t; a_data := t_data t |}.

(** The array a Python value denotes. *)
Definition content (x : pyval) : ndarray :=
  match x with
  | VNum v => scalar v
  | VArray a => a
  | VTensor t => tensor_get t
  end.

(** Modelled from the spec: the effect of a call on the logical content of
    its destination, for the two calls the spec defines: [fill] sets every
    element to one scalar, and [__setitem__(None, x)] assigns a value of the
    destination's shape to the whole tensor; the element types of value and
    destination are taken to agree.  [None] where the call raises or where
    the spec does not define the effect (an index expression, a kernel
    launch). *)
Definition perform (c : device_call) : option GPUTensor :=
  match c with
  | fill t x =>
      match a_data (content x) with
      | [v] => Some (with_data t (replicate (length (t_data t)) v))
      | _ => None
      end
  | setitem t None x =>
      if decide (a_shape (content x) = t_shape t)
      then Some (with_data t (a_data (content x)))
      else None
  | setitem _ (Some _) _ => None
  | prepared_async_call _ _ _ _ => None
  end.

(** A tensor holds one element per index of its shape. *)
Definition well_formed (t : GPUTensor) : Prop :=
  length (t_data t) = foldr Nat.mul 1%nat (t_shape t).

(** ** Queues *)

(** Modelled from the spec: the queue shared by a send and a receive op is
    created outside these sources.  It keeps the order of its values; [put]
    appends and never waits, [get] removes the oldest value and waits while
    there is none.  Queues are shared objects: the store maps a queue's
    identity to its content, and kernels hold identities. *)
Abbreviation queues := (gmap nat (list ndarray)).

Definition q_put (qs : queues) (q : nat) (v : ndarray) : queues :=
  <[q := (qs !!! q) ++ [v]]> qs.

(** [None]: the queue is empty and the caller waits. *)
Definition q_get (qs : queues) (q : nat) : option (ndarray * queues) :=
  match qs !!! q with
  | [] => None
  | x :: rest => Some (x, <[q := rest]> qs)
  end.

(** A call that may wait forever. *)
Inductive outcome (A : Type) : Type :=
  | Returns (a : A)
  | Raises (e : exn)
  | Blocks.
Arguments Returns {A} a.
Arguments Raises {A} e.
Arguments Blocks {A}.

(** ** The kernels *)

Module DimShuffleKernel.

Record op : Type := {
  tensor_description : TensorDescription;
  call_info : list TensorDescription;
  old_axis_positions : list nat
}.

Record obj : Type := {
  kernel : KernelHandle;
  params : list param
}.

Section Methods.
Context `{Runtime}.

Definition __init__ (o : op) : result obj :=
  let out := TensorDescriptionWrapper (tensor_description o) (Some 2%nat) in
  arg ← match call_info o with
        | [arg] => Ok arg
        | _ => Raise ValueError
        end;
  let in_tensor := TensorDescriptionWrapper arg (Some 2%nat) in
  let dtype := w_dtype out in
  let shape := w_shape in_tensor in
  let axes := old_axis_positions o in
  let '(k, ps) := get_dimshuffle dtype shape axes in_tensor out in
  Ok {| kernel := k; params := ps |}.

Definition bind_buffers (self : obj) : obj :=
  {| kernel := kernel self; params := bind_params (params self) |}.

Definition execute (self : obj) : device_call :=
  prepared_async_call (kernel self) (k_grid (kernel self)) (k_block (kernel self))
    (params self).

Definition bind_flex_scales (self : obj) : obj := self.

End Methods.
End DimShuffleKernel.

Module SetItemKernel.

Record op : Type := {
  call_info : list TensorDescription;
  op_item : option slice
}.

(** [params] exists only on a kernel constructed with a fallback kernel. *)
Record obj : Type := {
  tensor : slot GPUTensor;
  value : slot GPUTensor;
  item : option slice;
  kernel : option KernelHandle;
  params : option (list param)
}.

Section Methods.
Context `{Runtime}.

(** [len(strides) > 0 and np.min(strides) < 0 and item is None], the
    operands evaluated left to right as far as needed. *)
Definition use_copy_transpose (strides : list Z) (it : option slice) : result bool :=
  if (0 <? length strides)%nat
  then m ← np_min strides;
       if m <? 0
       then Ok (match it with None => true | Some _ => false end)
       else Ok false
  else Ok false.

Definition __init__ (o : op) : result obj :=
  '(t, v) ← match call_info o with
            | [t; v] => Ok (t, v)
            | _ => Raise ValueError
            end;
  let it := op_item o in
  c ← use_copy_transpose (td_strides t) it;
  if c : bool
  then
    let dtype := td_dtype t in
    let shape := td_shape t in
    let axes := seq 0 (length (td_shape t)) in
    let '(k, ps) := get_dimshuffle dtype shape axes
                      (TensorDescriptionWrapper v None)
                      (TensorDescriptionWrapper t None) in
    Ok {| tensor := Symbolic t; value := Symbolic v; item := it;
          kernel := Some k; params := Some ps |}
  else
    Ok {| tensor := Symbolic t; value := Symbolic v; item := it;
          kernel := None; params := None |}.

Definition bind_buffers (self : obj) : result obj :=
  let t := bind_value (tensor self) in
  let v := bind_value (value self) in
  ps ← match kernel self with
       | Some _ =>
           match params self with
           | Some ps => Ok (Some (bind_params ps))
           | None => Raise (AttributeError "params")
           end
       | None => Ok (params self)
       end;
  Ok {| tensor := t; value := v; item := item self;
        kernel := kernel self; params := ps |}.

Definition execute (self : obj) : result device_call :=
  match kernel self with
  | Some k =>
      match params self with
      | Some ps => Ok (prepared_async_call k (k_grid k) (k_block k) ps)
      | None => Raise (AttributeError "params")
      end
  | None =>
      t ← bound "tensor" (tensor self);
      v ← bound "value" (value self);
      if shape_is_unit (t_shape t)
      then Ok (fill t (VTensor v))
      else Ok (setitem t (item self) (VTensor v))
  end.

End Methods.
End SetItemKernel.

Module FillKernel.

Record obj : Type := {
  value : Q;
  tensor : slot GPUTensor
}.

Section Methods.
Context `{Runtime}.

Definition __init__ (td : TensorDescription) (v : Q) : result obj :=
  Ok {| value := v; tensor := Symbolic td |}.

Definition bind_buffers (self : obj) : result obj :=
  t ← bind_tensor (tensor self);
  Ok {| value := value self; tensor := t |}.

Definition execute (self : obj) : result device_call :=
  t ← bound "fill" (tensor self);
  Ok (fill t (VNum (value self))).

End Methods.
End FillKernel.

Module SendKernel.

Record op : Type := {
  shared_q : nat;
  args : list TensorDescription
}.

Record obj : Type := {
  q : nat;
  tensor : slot GPUTensor
}.

Section Methods.
Context `{Runtime}.

Definition __init__ (send_op : op) : result obj :=
  match args send_op with
  | td :: _ => Ok {| q := shared_q send_op; tensor := Symbolic td |}
  | [] => Raise IndexError
  end.

Definition bind_buffers (self : obj) : obj :=
  {| q := q self; tensor := bind_value (tensor self) |}.

(** The state that [execute] changes is the store of queues. *)
Definition execute (self : obj) (qs : queues) : result queues :=
  t ← bound "get" (tensor self);
  let value := tensor_get t in
  Ok (q_put qs (q self) value).

End Methods.
End SendKernel.

Module RecvKernel.

Record op : Type := {
  shared_q : nat;
  tensor_description : TensorDescription
}.

Record obj : Type := {
  recv_op : op;
  tensor : slot GPUTensor
}.

Section Methods.
Context `{Runtime}.

Definition __init__ (o : op) : result obj :=
  Ok {| recv_op := o; tensor := Symbolic (tensor_description o) |}.

Definition bind_buffers (self : obj) : obj :=
  {| recv_op := recv_op self; tensor := bind_value (tensor self) |}.

(** Returns the call issued on the destination and the queues left. *)
Definition execute (self : obj) (qs : queues) : outcome (device_call * queues) :=
  let q := shared_q (recv_op self) in
  match q_get qs q with
  | None => Blocks
  | Some (x, qs') =>
      match tensor self with
      | Symbolic _ => Raises (AttributeError "tensor")
      | Bound t =>
          if shape_is_unit (t_shape t)
          then Returns (fill t (VArray x), qs')
          else Returns (setitem t None (VArray x), qs')
      end
  end.

End Methods.
End RecvKernel.

(** ** Element-wise arithmetic and the random generator *)

(** [d[key]]. *)
Definition getitem (d : gmap string Q) (key : string) : result Q :=
  match d !! key with
  | Some v => Ok v
  | None => Raise (KeyError key)
  end.

Definition ew_mul (t : GPUTensor) (c : Q) : GPUTensor :=
  with_data t (map (fun x => x * c)%Q (t_data t)).

Definition ew_add (t : GPUTensor) (c : Q) : GPUTensor :=
  with_data t (map (fun x => x + c)%Q (t_data t)).

Definition ew_div (t : GPUTensor) (c : Q) : GPUTensor :=
  with_data t (map (fun x => x / c)%Q (t_data t)).

Section Arrays.
Context `{Runtime}.

(** [t.astype(d)]: a new array of element type [d]. *)
Definition astype (t : GPUTensor) (d : np_dtype) : GPUTensor :=
  {| t_dtype := d; t_shape := t_shape t; t_strides := t_strides t;
     t_data := map (np_cast d) (t_data t) |}.

(** [dst[:] = src] for [src] of the shape of [dst]: the elements are copied,
    and converted when the element types differ. *)
Definition assign_all (dst src : GPUTensor) : GPUTensor :=
  if np_dtype_eqb (t_dtype dst) (t_dtype src)
  then with_data dst (t_data src)
  else with_data dst (map (np_cast (t_dtype dst)) (t_data src)).

(** [pcg.fill_uniform(t)] and [pcg.fill_normal(t)] overwrite every element
    of [t] with a raw sample and advance the generator. *)
Definition fill_uniform (g : pcg_state) (t : GPUTensor) : GPUTensor * pcg_state :=
  (with_data t (map (pcg_uniform g) (seq 0 (length (t_data t)))),
   pcg_next g (length (t_data t))).

Definition fill_normal (g : pcg_state) (t : GPUTensor) : GPUTensor * pcg_state :=
  (with_data t (map (pcg_normal g) (seq 0 (length (t_data t)))),
   pcg_next g (length (t_data t))).

End Arrays.

Module RngFillKernel.

Record obj : Type := {
  distribution : string;
  params : gmap string Q;
  out : slot GPUTensor
}.

Section Methods.
Context `{Runtime}.

Definition __init__ (td : TensorDescription) (dist : string)
    (ps : gmap string Q) : result obj :=
  Ok {| distribution := dist; params := ps; out := Symbolic td |}.

Definition bind_buffers (self : obj) : result obj :=
  t ← bind_tensor (out self);
  Ok {| distribution := distribution self; params := params self; out := t |}.

Definition set_out (self : obj) (t : GPUTensor) : obj :=
  {| distribution := distribution self; params := params self; out := Bound t |}.

(** The state that [execute] changes is the tensor [out] and the
    generator. *)
Definition execute (self : obj) (g : pcg_state) : result (obj * pcg_state) :=
  if String.eqb (distribution self) "uniform" then
    t ← bound "out" (out self);
    let '(t, g) := fill_uniform g t in
    high ← getitem (params self) "high";
    low ← getitem (params self) "low";
    low' ← getitem (params self) "low";
    Ok (set_out self (assign_all t (ew_add (ew_mul t (high - low)%Q) low')), g)
  else if String.eqb (distribution self) "normal" then
    t ← bound "out" (out self);
    let '(t, g) := fill_normal g t in
    scale ← getitem (params self) "scale";
    loc ← getitem (params self) "loc";
    Ok (set_out self (assign_all t (ew_add (ew_mul t scale) loc)), g)
  else Ok (self, g).

End Methods.
End RngFillKernel.

Module FlexFillKernel.

(** The attributes of [FillKernel], and those the flex variant adds;
    [scale] exists once [bind_flex_scales] has run, [maxabs] once [execute]
    has. *)
Record obj : Type := {
  value : Q;
  tensor : slot GPUTensor;
  flex_entry : FlexEntry;
  output_flex_ids : list nat;
  scale : option Q;
  maxabs : option Z
}.

Definition set_maxabs (self : obj) (m : Z) : obj :=
  {| value := value self; tensor := tensor self; flex_entry := flex_entry self;
     output_flex_ids := output_flex_ids self; scale := scale self;
     maxabs := Some m |}.

Section Methods.
Context `{Runtime}.

Definition __init__ (td : TensorDescription) (v : Q) : result obj :=
  let fe := td_flex_entry td in
  Ok {| value := v; tensor := Symbolic td; flex_entry := fe;
        output_flex_ids := [flex_id fe]; scale := None; maxabs := None |}.

(** Inherited from [FillKernel]. *)
Definition bind_buffers (self : obj) : result obj :=
  t ← bind_tensor (tensor self);
  Ok {| value := value self; tensor := t; flex_entry := flex_entry self;
        output_flex_ids := output_flex_ids self; scale := scale self;
        maxabs := maxabs self |}.

Definition bind_flex_scales (self : obj) : obj :=
  {| value := value self; tensor := tensor self; flex_entry := flex_entry self;
     output_flex_ids := output_flex_ids self;
     scale := Some (fe_scale (flex_entry self)); maxabs := maxabs self |}.

(** [val = int(self.value / self.scale)]. *)
Definition quantize (self : obj) : result Z :=
  s ← match scale self with
      | Some s => Ok s
      | None => Raise (AttributeError "scale")
      end;
  x ← py_truediv (value self) s;
  Ok (py_int x).

(** The overflow tests of [execute], on the quantized value [val]: returns
    the kernel, with [maxabs] set, and the call issued on the tensor. *)
Definition store_clipped (self : obj) (val : Z) : result (obj * device_call) :=
  if pclip (fe_dtype (flex_entry self)) <? val then
    let clipped := py_int (inject_Z (pclip (fe_dtype (flex_entry self)))) in
    t ← bound "fill" (tensor self);
    Ok (set_maxabs self clipped, fill t (VNum (inject_Z clipped)))
  else if val <? nclip (fe_dtype (flex_entry self)) then
    let clipped := py_int (inject_Z (nclip (fe_dtype (flex_entry self)))) in
    t ← bound "fill" (tensor self);
    Ok (set_maxabs self (py_abs clipped), fill t (VNum (inject_Z clipped)))
  else
    t ← bound "fill" (tensor self);
    Ok (set_maxabs self (py_abs val), fill t (VNum (inject_Z val))).

(** [execute]: its first statement, then the overflow tests. *)
Definition execute (self : obj) : result (obj * device_call) :=
  val ← quantize self;
  store_clipped self val.

End Methods.
End FlexFillKernel.

Module FlexRngFillKernel.

(** The attributes of [RngFillKernel], and those the flex variant adds. *)
Record obj : Type := {
  distribution : string;
  params : gmap string Q;
  out : slot GPUTensor;
  flex_entry : FlexEntry;
  output_flex_ids : list nat;
  scale : option Q
}.

Definition set_out (self : obj) (t : GPUTensor) : obj :=
  {| distribution := distribution self; params := params self; out := Bound t;
     flex_entry := flex_entry self; output_flex_ids := output_flex_ids self;
     scale := scale self |}.

Definition get_scale (self : obj) : result Q :=
  match scale self with
  | Some s => Ok s
  | None => Raise (AttributeError "scale")
  end.


Section Methods.
Context `{Runtime}.

Definition __init__ (td : TensorDescription) (dist : string)
    (ps : gmap string Q) : result obj :=
  let fe := td_flex_entry td in
  Ok {| distribution := dist; params := ps; out := Symbolic td;
        flex_entry := fe; output_flex_ids := [flex_id fe]; scale := None |}.

(** Inherited from [RngFillKernel]. *)
Definition bind_buffers (self : obj) : result obj :=
  t ← bind_tensor (out self);
  Ok {| distribution := distribution self; params := params self; out := t;
        flex_entry := flex_entry self; output_flex_ids := output_flex_ids self;
        scale := scale self |}.

Definition bind_flex_scales (self : obj) : obj :=
  {| distribution := distribution self; params := params self; out := out self;
     flex_entry := flex_entry self; output_flex_ids := output_flex_ids self;
     scale := Some (fe_scale (flex_entry self)) |}.

Definition execute (self : obj) (g : pcg_state) : result (obj * pcg_state) :=
  t ← bound "astype" (out self);
  let out_float := astype t float32 in
  if String.eqb (distribution self) "uniform" then
    let '(out_float, g) := fill_uniform g out_float in
    high ← getitem (params self) "high";
    low ← getitem (params self) "low";
    low' ← getitem (params self) "low";
    s ← get_scale self;
    Ok (set_out self
          (assign_all t
             (astype (ew_div (ew_add (ew_mul out_float (high - low)%Q) low') s)
                (t_dtype t))), g)
  else if String.eqb (distribution self) "normal" then
    let '(out_float, g) := fill_normal g out_float in
    scale ← getitem (params self) "scale";
    loc ← getitem (params self) "loc";
    s ← get_scale self;
    Ok (set_out self
          (assign_all t
             (astype (ew_div (ew_add (ew_mul out_float scale) loc) s)
                (t_dtype t))), g)
  else Ok (self, g).

End Methods.
End FlexRngFillKernel.

(** ** Notions the statements use *)

(** Clipping [v] into the interval from [lo] to [hi]. *)
Definition clip_into (lo hi v : Z) : Z := Z.max lo (Z.min hi v).

(** [ps'] is [ps] with every descriptor resolved to its device address by
    [addr] and every other entry kept, position by position. *)
Definition resolved_from (addr : TensorDescription -> Z) (ps ps' : list param) : Prop :=
  length ps' = length ps /\
  (forall (i : nat) (td : TensorDescription),
      ps !! i = Some (PDescription td) -> ps' !! i = Some (PAddress (addr td))) /\
  (forall (i : nat) (p : param),
      ps !! i = Some p -> is_TensorDescription p = false -> ps' !! i = Some p).

(** The rule of [SetItemKernel.__init__] in words: the destination has a
    dimension, its least stride is negative, and no index expression is
    given. *)
Definition needs_copy_transpose (t : TensorDescription) (it : option slice) : Prop :=
  (0 < length (td_strides t))%nat /\
  (exists m : Z, np_min (td_strides t) = Ok m /\ m < 0) /\
  it = None.

(** ** A runtime and inputs for examples *)

Definition sample_kernel (dtype : np_dtype) (shape axes : list nat) : KernelHandle :=
  {| k_key := (dtype, shape, axes);
     k_grid := [length shape; 1%nat; 1%nat];
     k_block := [32%nat; 1%nat; 1%nat];
     k_args := [PInt (Z.of_nat (length shape))] |}.

Definition sample_wrapper (td : TensorDescription) (min_dim : option nat) : Wrapper :=
  {| w_td := td; w_dtype := td_dtype td; w_shape := td_shape td;
     w_strides := td_strides td |}.

Definition sample_cast (d : np_dtype) (x : Q) : Q :=
  match d with
  | float32 | float64 => x
  | int8 | int16 | int32 => inject_Z (py_int x)
  end.

Definition sample_runtime : Runtime :=
  {| pointer_from_td := fun td => 4096 + 256 * Z.of_nat (td_name td);
     _get_copy_transpose_kernel := sample_kernel;
     TensorDescriptionWrapper := sample_wrapper;
     td_value := fun td =>
       {| t_dtype := td_dtype td; t_shape := td_shape td;
          t_strides := td_strides td;
          t_data := replicate (foldr Nat.mul 1%nat (td_shape td)) 0%Q |};
     td_flex_entry := fun td =>
       {| flex_id := td_name td; fe_scale := 1 # 256;
          fe_dtype := {| pclip := 32767; nclip := -32768 |} |};
     pcg_state := nat;
     pcg_uniform := fun g i => Z.of_nat ((g + 37 * i) mod 100) # 100;
     pcg_normal := fun g i => (Z.of_nat ((g + 37 * i) mod 100) - 50) # 25;
     pcg_next := fun g n => (g + n)%nat;
     np_cast := sample_cast |}.

(** A destination of shape [()], one of shape [(2, 3)] laid out backwards,
    and a plain source of shape [(2, 3)]. *)
Definition td_unit : TensorDescription :=
  {| td_name := 1; td_dtype := float32; td_shape := []; td_strides := [] |}.

Definition td_reversed : TensorDescription :=
  {| td_name := 2; td_dtype := float32; td_shape := [2%nat; 3%nat];
     td_strides := [-3; 1] |}.

Definition td_plain : TensorDescription :=
  {| td_name := 3; td_dtype := float32; td_shape := [2%nat; 3%nat];
     td_strides := [3; 1] |}.

Definition op_unit : SetItemKernel.op :=
  {| SetItemKernel.call_info := [td_unit; td_unit]; SetItemKernel.op_item := None |}.

Definition op_reversed : SetItemKernel.op :=
  {| SetItemKernel.call_info := [td_reversed; td_plain];
     SetItemKernel.op_item := None |}.

(** A flex element type of eight bits and a tensor of it, bound and scaled:
    the value 300 at scale 1, and the value -17/20 at scale 1/2. *)
Definition flex8 : FlexEntry :=
  {| flex_id := 7; fe_scale := 1; fe_dtype := {| pclip := 127; nclip := -128 |} |}.

Definition tensor8 : GPUTensor :=
  {| t_dtype := int8; t_shape := [2%nat; 2%nat]; t_strides := [2; 1];
     t_data := [0; 0; 0; 0]%Q |}.



(** The kernel constructed for [op_unit], before and after binding. *)
Definition unit_tensor : GPUTensor := @td_value sample_runtime td_unit.

Definition unit_setitem : SetItemKernel.obj :=
  {| SetItemKernel.tensor := Symbolic td_unit;
     SetItemKernel.value := Symbolic td_unit;
     SetItemKernel.item := None;
     SetItemKernel.kernel := None;
     SetItemKernel.params := None |}.

Definition unit_setitem_bound : SetItemKernel.obj :=
  {| SetItemKernel.tensor := Bound unit_tensor;
     SetItemKernel.value := Bound unit_tensor;
     SetItemKernel.item := None;
     SetItemKernel.kernel := None;
     SetItemKernel.params := None |}.

(** Sources and destinations of shape [()], [(3,)] and [(2, 3)], and bound
    send and receive kernels on queue 5. *)
Definition scalar_src : GPUTensor :=
  {| t_dtype := float32; t_shape := []; t_strides := []; t_data := [7 # 2]%Q |}.

Definition scalar_dst : GPUTensor :=
  {| t_dtype := float32; t_shape := []; t_strides := []; t_data := [0]%Q |}.

Definition vector_src : GPUTensor :=
  {| t_dtype := float32; t_shape := [3%nat]; t_strides := [1];
     t_data := [-1; 0; 1 # 3]%Q |}.

Definition vector_dst : GPUTensor :=
  {| t_dtype := float32; t_shape := [3%nat]; t_strides := [1];
     t_data := [0; 0; 0]%Q |}.

Definition tensor_src : GPUTensor :=
  {| t_dtype := float32; t_shape := [2%nat; 3%nat]; t_strides := [3; 1];
     t_data := [1; 2; 3; 4; 5; 6]%Q |}.

Definition tensor_dst : GPUTensor :=
  {| t_dtype := float32; t_shape := [2%nat; 3%nat]; t_strides := [3; 1];
     t_data := [0; 0; 0; 0; 0; 0]%Q |}.

Definition send_from (t : GPUTensor) : SendKernel.obj :=
  {| SendKernel.q := 5; SendKernel.tensor := Bound t |}.

Definition recv_into (t : GPUTensor) : RecvKernel.obj :=
  {| RecvKernel.recv_op :=
       {| RecvKernel.shared_q := 5; RecvKernel.tensor_description := td_plain |};
     RecvKernel.tensor := Bound t |}.

(** Queue 5 holding the content of [tensor_src], and no queue at all. *)
Definition queues_loaded : queues := <[5%nat := [tensor_get tensor_src]]> ∅.

Definition queues_empty : queues := ∅.

(** Sending [src] on the empty queue 5 and receiving into [dst] leaves the
    content of [src] in the destination. *)
Definition delivers (src dst : GPUTensor) : Prop :=
  exists (qs1 qs2 : queues) (call : device_call) (dst' : GPUTensor),
    SendKernel.execute (send_from src) queues_empty = Ok qs1 /\
    RecvKernel.execute (recv_into dst) qs1 = Returns (call, qs2) /\
    perform call = Some dst' /\
    tensor_get dst' = tensor_get src.

(** A bound flex kernel that draws from the uniform distribution on [0, 1)
    into [tensor8], at scale 1/256. *)
Definition uniform_params : gmap string Q := <["high" := 1%Q]> (<["low" := 0%Q]> ∅).


(** The kernel constructed for [op_reversed], which holds a fallback
    kernel, and a bound flex kernel with a tag that names no
    distribution. *)
Definition reversed_setitem : SetItemKernel.obj :=
  {| SetItemKernel.tensor := Symbolic td_reversed;
     SetItemKernel.value := Symbolic td_plain;
     SetItemKernel.item := None;
     SetItemKernel.kernel := Some (sample_kernel float32 [2%nat; 3%nat] [0%nat; 1%nat]);
     SetItemKernel.params :=
       Some [PDescription td_reversed; PDescription td_plain; PInt 2;
             PInt 3; PInt 1; PInt (-3); PInt 1] |}.

Definition rng_poisson8 : FlexRngFillKernel.obj :=
  {| FlexRngFillKernel.distribution := "poisson";
     FlexRngFillKernel.params := uniform_params;
     FlexRngFillKernel.out := Bound tensor8;
     FlexRngFillKernel.flex_entry := flex8;
     FlexRngFillKernel.output_flex_ids := [7%nat];
     FlexRngFillKernel.scale := Some (1 # 256) |}.

(** ** Further inputs *)

(** A transposition of [td_plain] into a tensor of shape [(3, 2)]. *)
Definition td_transposed : TensorDescription :=
  {| td_name := 6; td_dtype := float32; td_shape := [3%nat; 2%nat];
     td_strides := [2; 1] |}.

Definition op_transpose : DimShuffleKernel.op :=
  {| DimShuffleKernel.tensor_description := td_transposed;
     DimShuffleKernel.call_info := [td_plain];
     DimShuffleKernel.old_axis_positions := [1%nat; 0%nat] |}.

(** An assignment into the reversed tensor through an index expression. *)
Definition op_reversed_sliced : SetItemKernel.op :=
  {| SetItemKernel.call_info := [td_reversed; td_plain];
     SetItemKernel.op_item :=
       Some {| sl_start := Some 0; sl_stop := Some 1; sl_step := None |} |}.

(** Send and receive ops on queue 5 and a send op on queue 9; a queue 5
    that holds an earlier value. *)
Definition send_op5 : SendKernel.op :=
  {| SendKernel.shared_q := 5; SendKernel.args := [td_plain; td_unit] |}.

Definition recv_op5 : RecvKernel.op :=
  {| RecvKernel.shared_q := 5; RecvKernel.tensor_description := td_plain |}.

Definition send9_from (t : GPUTensor) : SendKernel.obj :=
  {| SendKernel.q := 9; SendKernel.tensor := Bound t |}.

Definition queues_pending : queues := <[5%nat := [tensor_get tensor_dst]]> ∅.

(** Queue 5 holding one value and queue 9 the content of [tensor_src]. *)
Definition queues_both : queues := q_put queues_loaded 9 (tensor_get tensor_src).





(** A uniform kernel whose parameters lack ["low"], and a flex kernel with
    both keys on which [bind_flex_scales] has not run. *)
Definition rng_no_low : RngFillKernel.obj :=
  {| RngFillKernel.distribution := "uniform";
     RngFillKernel.params := <["high" := 3%Q]> (<["loc" := 0%Q]> ∅);
     RngFillKernel.out := Bound tensor_dst |}.

Definition rng_unscaled8 : FlexRngFillKernel.obj :=
  {| FlexRngFillKernel.distribution := "uniform";
     FlexRngFillKernel.params := uniform_params;
     FlexRngFillKernel.out := Bound tensor8;
     FlexRngFillKernel.flex_entry := flex8;
     FlexRngFillKernel.output_flex_ids := [7%nat];
     FlexRngFillKernel.scale := None |}.

(** The parts of a tensor that an assignment to all its elements keeps. *)
Definition same_layout (t t' : GPUTensor) : Prop :=
  t_shape t' = t_shape t /\ t_dtype t' = t_dtype t /\
  t_strides t' = t_strides t /\ length (t_data t') = length (t_data t).



(** The value a [FlexFillKernel] stores and the [maxabs] it reports for the
    quantized value [val], between the clip bounds [n] and [p]. *)
Definition stored_value (n p val : Z) : Z :=
  if p <? val then p else if val <? n then n else val.

Definition reported_maxabs (n p val : Z) : Z :=
  if p <? val then p else if val <? n then Z.abs n else Z.abs val.

(** Flex kernels on [tensor8] for the values 40 and 100 at scale 1/2, one
    with a scale of zero and one not yet scaled. *)
Definition flex_fill (v : Q) (s : option Q) : FlexFillKernel.obj :=
  {| FlexFillKernel.value := v; FlexFillKernel.tensor := Bound tensor8;
     FlexFillKernel.flex_entry := flex8; FlexFillKernel.output_flex_ids := [7%nat];
     FlexFillKernel.scale := s; FlexFillKernel.maxabs := None |}.


(** * Properties *)

(** ** Numbers *)

Lemma py_int_inject_Z (z : Z) : py_int (inject_Z z) = z.
Proof. unfold py_int; simpl. apply Z.quot_1_r. Qed.






(** ** FlexFillKernel *)







(** ** Parameter lists *)

Section ParameterLists.
Context `{Runtime}.

(** C4. [get_dimshuffle] returns the kernel made for the element type, shape
    and axes, and a parameter list in this order: the destination
    descriptor, the source descriptor, the kernel's own arguments, the source
    strides, the destination strides. *)
Theorem get_dimshuffle_parameter_order (dtype : np_dtype) (shape axes : list nat)
    (src dst : Wrapper) :
  let kernel := _get_copy_transpose_kernel dtype shape axes in
  let params := (get_dimshuffle dtype shape axes src dst).2 in
  let a := length (k_args kernel) in
  let s := length (w_strides src) in
  get_dimshuffle dtype shape axes src dst
    = (kernel,
       [PDescription (w_td dst); PDescription (w_td src)] ++ k_args kernel
         ++ map PInt (w_strides src) ++ map PInt (w_strides dst)) /\
  length params = (2 + a + s + length (w_strides dst))%nat /\
  params !! 0%nat = Some (PDescription (w_td dst)) /\
  params !! 1%nat = Some (PDescription (w_td src)) /\
  (forall i : nat, (i < a)%nat -> params !! (2 + i)%nat = k_args kernel !! i) /\
  (forall i : nat, (i < s)%nat ->
     params !! (2 + a + i)%nat = PInt <$> w_strides src !! i) /\
  (forall i : nat,
     params !! (2 + a + s + i)%nat = PInt <$> w_strides dst !! i).
Proof.
  intros kernel params a s.
  assert (params = [PDescription (w_td dst); PDescription (w_td src)] ++ k_args kernel
                     ++ map PInt (w_strides src) ++ map PInt (w_strides dst)) as E.
  { unfold params, get_dimshuffle. cbn [snd]. fold kernel.
    rewrite <- !app_assoc. reflexivity. }
  split; [unfold get_dimshuffle; fold kernel; rewrite <- !app_assoc; reflexivity |].
  rewrite E. subst a s.
  split; [simpl; rewrite !length_app, !length_map; lia |].
  split; [reflexivity |]. split; [reflexivity |].
  split; [| split].
  - intros i Hi. simpl. apply lookup_app_l. exact Hi.
  - intros i Hi. simpl.
    rewrite lookup_app_r by lia.
    replace (length (k_args kernel) + i - length (k_args kernel))%nat with i by lia.
    rewrite lookup_app_l by (rewrite length_map; exact Hi).
    apply list_lookup_fmap.
  - intros i. simpl.
    rewrite lookup_app_r by lia.
    rewrite lookup_app_r by (rewrite length_map; lia).
    rewrite length_map.
    replace (length (k_args kernel) + length (w_strides src) + i
             - length (k_args kernel) - length (w_strides src))%nat with i by lia.
    apply list_lookup_fmap.
Qed.

Lemma bind_param_at_resolve (ps : list param) (i : nat) :
  bind_param_at ps i = match ps !! i with
                       | Some p => <[i := resolve p]> ps
                       | None => ps
                       end.
Proof.
  unfold bind_param_at.
  destruct (ps !! i) as [p |] eqn:E; [| reflexivity].
  destruct p; simpl; try reflexivity; symmetry; apply list_insert_id; exact E.
Qed.

(** The loop after [k] rounds: the first [k] entries are resolved, the rest
    are as they were. *)
Lemma bind_params_prefix (ps : list param) (k : nat) :
  forall j : nat,
    foldl bind_param_at ps (seq 0 k) !! j
      = if decide (j < k)%nat then resolve <$> ps !! j else ps !! j.
Proof.
  induction k as [| k IH]; intros j.
  - simpl. destruct (decide (j < 0)%nat); [lia | reflexivity].
  - rewrite seq_S, foldl_app. simpl.
    rewrite bind_param_at_resolve.
    pose proof (IH k) as Hk. destruct (decide (k < k)%nat); [lia |].
    rewrite Hk.
    destruct (ps !! k) as [p |] eqn:E.
    + destruct (decide (j = k)) as [-> | Hne].
      * rewrite list_lookup_insert_eq.
        -- destruct (decide (k < S k)%nat); [| lia]. rewrite E. reflexivity.
        -- apply lookup_lt_is_Some. rewrite Hk. eauto.
      * rewrite list_lookup_insert_ne by congruence. rewrite IH.
        destruct (decide (j < k)%nat), (decide (j < S k)%nat);
          try reflexivity; lia.
    + rewrite IH.
      destruct (decide (j < k)%nat), (decide (j < S k)%nat);
        try reflexivity; try lia.
      assert (j = k) as -> by lia. rewrite E. reflexivity.
Qed.

Lemma bind_params_map (ps : list param) : bind_params ps = map resolve ps.
Proof.
  apply list_eq. intros j. unfold bind_params.
  rewrite bind_params_prefix, list_lookup_fmap.
  destruct (decide (j < length ps)%nat) as [Hj | Hj]; [reflexivity |].
  rewrite lookup_ge_None_2 by lia. reflexivity.
Qed.

Lemma bind_params_resolved (ps : list param) :
  resolved_from pointer_from_td ps (bind_params ps).
Proof.
  rewrite bind_params_map. unfold resolved_from.
  split; [apply length_map |].
  split.
  - intros i td E. rewrite list_lookup_fmap, E. reflexivity.
  - intros i p E Hp. rewrite list_lookup_fmap, E. destruct p; try reflexivity.
    discriminate.
Qed.

(** C8. [bind_buffers] of a [DimShuffleKernel], and of a [SetItemKernel] that
    holds a fallback kernel, replaces the entries of the parameter list that
    are descriptors with their device addresses and leaves every other entry,
    the length and the order as they were. *)
Theorem bind_buffers_resolves_descriptors :
  (forall self : DimShuffleKernel.obj,
      resolved_from pointer_from_td
        (DimShuffleKernel.params self)
        (DimShuffleKernel.params (DimShuffleKernel.bind_buffers self)) /\
      DimShuffleKernel.kernel (DimShuffleKernel.bind_buffers self)
        = DimShuffleKernel.kernel self) /\
  (forall (self : SetItemKernel.obj) (k : KernelHandle) (ps : list param),
      SetItemKernel.kernel self = Some k ->
      SetItemKernel.params self = Some ps ->
      exists (self' : SetItemKernel.obj) (ps' : list param),
        SetItemKernel.bind_buffers self = Ok self' /\
        SetItemKernel.params self' = Some ps' /\
        resolved_from pointer_from_td ps ps' /\
        SetItemKernel.kernel self' = Some k).
Proof.
  split.
  - intros self. split; [apply bind_params_resolved | reflexivity].
  - intros self k ps Hk Hps.
    unfold SetItemKernel.bind_buffers. rewrite Hk, Hps. simpl.
    eexists _, (bind_params ps).
    split; [reflexivity |]. simpl.
    split; [reflexivity |].
    split; [apply bind_params_resolved | reflexivity].
Qed.

End ParameterLists.

Lemma bind_buffers_resolves_descriptors_witness :
  exists self' : SetItemKernel.obj,
    @SetItemKernel.bind_buffers sample_runtime reversed_setitem = Ok self' /\
    SetItemKernel.params self'
      = Some [PAddress 4608; PAddress 4864; PInt 2; PInt 3; PInt 1; PInt (-3); PInt 1].
Proof.
  destruct (proj2 (@bind_buffers_resolves_descriptors sample_runtime)
              reversed_setitem _ _ eq_refl eq_refl)
    as (self' & ps' & E & Hps & _).
  exists self'. split; [exact E |].
  vm_compute in E. injection E as <-. reflexivity.
Defined.

(** ** SetItemKernel *)

Section SetItem.
Context `{Runtime}.

Lemma np_min_least (x : Z) (l : list Z) :
  exists m : Z, np_min (x :: l) = Ok m /\ m ∈ x :: l /\ Forall (fun y => m <= y) (x :: l).
Proof.
  simpl. exists (foldl Z.min x l). split; [reflexivity |].
  revert x. induction l as [| y l IH]; intros x; simpl.
  - split; [apply list_elem_of_here | constructor; [lia | constructor]].
  - destruct (IH (Z.min x y)) as [Hin Hall].
    apply Forall_cons in Hall as [Hm Hall].
    split.
    + apply elem_of_cons in Hin as [-> | Hin].
      * destruct (Z.min_spec x y) as [[_ ->] | [_ ->]].
        -- apply list_elem_of_here.
        -- apply list_elem_of_further, list_elem_of_here.
      * apply list_elem_of_further, list_elem_of_further. exact Hin.
    + repeat constructor; try lia. exact Hall.
Qed.

Lemma use_copy_transpose_rule (t : TensorDescription) (it : option slice) :
  exists b : bool,
    SetItemKernel.use_copy_transpose (td_strides t) it = Ok b /\
    (b = true <-> needs_copy_transpose t it).
Proof.
  unfold SetItemKernel.use_copy_transpose, needs_copy_transpose.
  destruct (td_strides t) as [| x l] eqn:E.
  - exists false. split; [reflexivity |].
    split; [discriminate | simpl; intros [? _]; lia].
  - change (0 <? length (x :: l))%nat with true. cbv iota.
    destruct (np_min_least x l) as (m & Hm & _). rewrite Hm. simpl.
    destruct (Z.ltb_spec m 0) as [Hneg | Hpos].
    + destruct it as [sl |].
      * exists false. split; [reflexivity |].
        split; [discriminate | intros (_ & _ & ?); discriminate].
      * exists true. split; [reflexivity |].
        split; [| reflexivity]. intros _.
        split; [lia |]. split; [| reflexivity]. exists m. split; [reflexivity | exact Hneg].
    + exists false. split; [reflexivity |].
      split; [discriminate |].
      intros (_ & (m' & Hm' & Hlt) & _). injection Hm' as <-. lia.
Qed.

(** C2, as amended.  A [SetItemKernel] holds a fallback kernel, made by
    [get_dimshuffle], exactly when the destination has a dimension, its least
    stride is negative and no index expression is given.  In every other case
    [kernel] is [None], and the bound kernel executes by filling the
    destination with the value when the destination's shape is [()], and by
    indexed assignment with the given index expression otherwise. *)
Theorem SetItem_fallback_rule (o : SetItemKernel.op) (t v : TensorDescription) :
  SetItemKernel.call_info o = [t; v] ->
  exists self : SetItemKernel.obj,
    SetItemKernel.__init__ o = Ok self /\
    (is_Some (SetItemKernel.kernel self)
       <-> needs_copy_transpose t (SetItemKernel.op_item o)) /\
    (needs_copy_transpose t (SetItemKernel.op_item o) ->
       exists (k : KernelHandle) (ps : list param),
         get_dimshuffle (td_dtype t) (td_shape t) (seq 0 (length (td_shape t)))
           (TensorDescriptionWrapper v None) (TensorDescriptionWrapper t None)
           = (k, ps) /\
         SetItemKernel.kernel self = Some k /\
         SetItemKernel.params self = Some ps) /\
    (~ needs_copy_transpose t (SetItemKernel.op_item o) ->
       SetItemKernel.kernel self = None /\
       exists self' : SetItemKernel.obj,
         SetItemKernel.bind_buffers self = Ok self' /\
         SetItemKernel.execute self'
           = Ok (if shape_is_unit (t_shape (td_value t))
                 then fill (td_value t) (VTensor (td_value v))
                 else setitem (td_value t) (SetItemKernel.op_item o)
                        (VTensor (td_value v)))).
Proof.
  intros Hci.
  destruct (use_copy_transpose_rule t (SetItemKernel.op_item o)) as (b & Hb & Hiff).
  unfold SetItemKernel.__init__. rewrite Hci. simpl. rewrite Hb. simpl.
  destruct b.
  - eexists. split; [reflexivity |]. simpl.
    assert (needs_copy_transpose t (SetItemKernel.op_item o)) as Hn by (apply Hiff; reflexivity).
    split; [split; [intros _; exact Hn | intros _; eauto] |].
    split; [intros _; eexists _, _; repeat split; reflexivity |].
    intros Hnot. contradiction.
  - eexists. split; [reflexivity |]. simpl.
    assert (~ needs_copy_transpose t (SetItemKernel.op_item o)) as Hn.
    { intros Hn. apply Hiff in Hn. discriminate. }
    split; [split; [intros [k Hk]; discriminate | intros Hy; contradiction] |].
    split; [intros Hy; contradiction |].
    intros _. split; [reflexivity |].
    eexists. split; [reflexivity |].
    unfold SetItemKernel.execute. simpl.
    destruct (shape_is_unit (t_shape (td_value t))); reflexivity.
Qed.

End SetItem.

Lemma SetItem_fallback_rule_witness :
  @SetItemKernel.__init__ sample_runtime op_reversed = Ok reversed_setitem /\
  exists self : SetItemKernel.obj,
    @SetItemKernel.__init__ sample_runtime op_reversed = Ok self /\
    is_Some (SetItemKernel.kernel self).
Proof.
  split; [reflexivity |].
  destruct (@SetItem_fallback_rule sample_runtime op_reversed td_reversed td_plain eq_refl)
    as (self & Hinit & Hiff & _).
  exists self. split; [exact Hinit |].
  apply Hiff. unfold needs_copy_transpose. simpl.
  split; [lia |]. split; [| reflexivity].
  exists (-3). split; [reflexivity | lia].
Defined.

(** C2, as stated, fails on a destination of shape [()]: no kernel is
    made, and the bound kernel executes by [fill], not by indexed
    assignment. *)
Lemma SetItem_unit_destination_fills :
  @SetItemKernel.__init__ sample_runtime op_unit = Ok unit_setitem /\
  SetItemKernel.kernel unit_setitem = None /\
  @SetItemKernel.bind_buffers sample_runtime unit_setitem = Ok unit_setitem_bound /\
  SetItemKernel.execute unit_setitem_bound
    = Ok (fill unit_tensor (VTensor unit_tensor)) /\
  (forall (t : GPUTensor) (it : option slice) (x : pyval),
      SetItemKernel.execute unit_setitem_bound <> Ok (setitem t it x)).
Proof.
  split; [reflexivity |]. split; [reflexivity |]. split; [reflexivity |].
  split; [reflexivity |]. intros t it x. discriminate.
Qed.

(** ** RngFillKernel and FlexRngFillKernel *)

Section RngFill.
Context `{Runtime}.

(** C3, as amended.  Constructing an [RngFillKernel] succeeds for every
    distribution tag: the constructor stores the tag, the parameters and the
    destination as given and raises nothing. *)
Theorem RngFill_init_accepts_any_tag (td : TensorDescription) (dist : string)
    (ps : gmap string Q) :
  RngFillKernel.__init__ td dist ps
    = Ok {| RngFillKernel.distribution := dist; RngFillKernel.params := ps;
            RngFillKernel.out := Symbolic td |} /\
  ~ is_error (RngFillKernel.__init__ td dist ps).
Proof. split; [reflexivity | simpl; tauto]. Qed.

(** C10. When the distribution tag is neither ["uniform"] nor ["normal"],
    [execute] of an [RngFillKernel], and of a bound [FlexRngFillKernel],
    returns without an error and leaves the kernel, its destination tensor
    and the generator as they were. *)
Theorem RngFill_unknown_tag_is_noop :
  (forall (self : RngFillKernel.obj) (g : pcg_state),
      RngFillKernel.distribution self <> "uniform" ->
      RngFillKernel.distribution self <> "normal" ->
      RngFillKernel.execute self g = Ok (self, g)) /\
  (forall (self : FlexRngFillKernel.obj) (g : pcg_state) (t : GPUTensor),
      FlexRngFillKernel.out self = Bound t ->
      FlexRngFillKernel.distribution self <> "uniform" ->
      FlexRngFillKernel.distribution self <> "normal" ->
      FlexRngFillKernel.execute self g = Ok (self, g)).
Proof.
  split.
  - intros self g Hu Hn. unfold RngFillKernel.execute.
    apply String.eqb_neq in Hu, Hn. rewrite Hu, Hn. reflexivity.
  - intros self g t Ht Hu Hn. unfold FlexRngFillKernel.execute.
    apply String.eqb_neq in Hu, Hn. rewrite Ht. simpl. rewrite Hu, Hn.
    reflexivity.
Qed.

End RngFill.

Lemma RngFill_unknown_tag_is_noop_witness :
  @FlexRngFillKernel.execute sample_runtime rng_poisson8 0%nat
    = Ok (rng_poisson8, 0%nat).
Proof.
  apply (proj2 (@RngFill_unknown_tag_is_noop sample_runtime) rng_poisson8 0%nat
           tensor8 eq_refl); discriminate.
Defined.

(** C3, as stated, fails: a kernel with the tag ["poisson"] is constructed
    without an error. *)
Lemma RngFill_init_poisson_succeeds :
  "poisson" <> "uniform" /\ "poisson" <> "normal" /\
  RngFillKernel.__init__ td_plain "poisson" ∅
    = Ok {| RngFillKernel.distribution := "poisson"; RngFillKernel.params := ∅;
            RngFillKernel.out := Symbolic td_plain |} /\
  ~ is_error (RngFillKernel.__init__ td_plain "poisson" ∅).
Proof.
  split; [discriminate |]. split; [discriminate |].
  split; [reflexivity | simpl; tauto].
Qed.

(** ** SendKernel and RecvKernel *)

Lemma q_put_appends (qs : queues) (q : nat) (v : ndarray) :
  q_put qs q v !!! q = (qs !!! q) ++ [v] /\
  (forall q' : nat, q' <> q -> q_put qs q v !!! q' = qs !!! q').
Proof.
  unfold q_put. split.
  - apply lookup_total_insert_eq.
  - intros q' Hne. apply lookup_total_insert_ne. congruence.
Qed.

Lemma q_get_head (qs : queues) (q : nat) (x : ndarray) (rest : list ndarray) :
  qs !!! q = x :: rest -> q_get qs q = Some (x, <[q := rest]> qs).
Proof. intros E. unfold q_get. rewrite E. reflexivity. Qed.

Lemma Recv_execute_blocks_on_empty (self : RecvKernel.obj) (qs : queues) :
  qs !!! RecvKernel.shared_q (RecvKernel.recv_op self) = [] ->
  RecvKernel.execute self qs = Blocks.
Proof. intros E. unfold RecvKernel.execute, q_get. rewrite E. reflexivity. Qed.

(** The call [execute] issues on the value at the head of the queue. *)
Lemma Recv_execute_head (self : RecvKernel.obj) (qs : queues)
    (t : GPUTensor) (x : ndarray) (rest : list ndarray) :
  RecvKernel.tensor self = Bound t ->
  qs !!! RecvKernel.shared_q (RecvKernel.recv_op self) = x :: rest ->
  RecvKernel.execute self qs
    = Returns (if shape_is_unit (t_shape t)
               then fill t (VArray x)
               else setitem t None (VArray x),
               <[RecvKernel.shared_q (RecvKernel.recv_op self) := rest]> qs).
Proof.
  intros Ht Hq. unfold RecvKernel.execute.
  rewrite (q_get_head _ _ _ _ Hq), Ht.
  destruct (shape_is_unit (t_shape t)); reflexivity.
Qed.

(** C7. [execute] of a bound [RecvKernel] takes one value, the oldest, from
    its queue and leaves the other queues alone; when the destination's
    shape is [()] it fills the destination with that value, and otherwise it
    assigns the value to the whole destination, with no index expression. *)
Theorem Recv_execute_takes_one_value (self : RecvKernel.obj) (qs : queues)
    (t : GPUTensor) (x : ndarray) (rest : list ndarray) :
  RecvKernel.tensor self = Bound t ->
  qs !!! RecvKernel.shared_q (RecvKernel.recv_op self) = x :: rest ->
  exists (call : device_call) (qs' : queues),
    RecvKernel.execute self qs = Returns (call, qs') /\
    qs' !!! RecvKernel.shared_q (RecvKernel.recv_op self) = rest /\
    (forall q' : nat, q' <> RecvKernel.shared_q (RecvKernel.recv_op self) ->
       qs' !!! q' = qs !!! q') /\
    (t_shape t = [] -> call = fill t (VArray x)) /\
    (t_shape t <> [] -> call = setitem t None (VArray x)).
Proof.
  intros Ht Hq. rewrite (Recv_execute_head self qs t x rest Ht Hq).
  eexists _, _. split; [reflexivity |].
  split; [apply lookup_total_insert_eq |].
  split; [intros q' Hne; apply lookup_total_insert_ne; congruence |].
  destruct (t_shape t) as [| n s]; simpl.
  - split; [reflexivity | congruence].
  - split; [discriminate | reflexivity].
Qed.

Lemma Recv_execute_takes_one_value_witness :
  exists qs' : queues,
    RecvKernel.execute (recv_into tensor_dst) queues_loaded
      = Returns (setitem tensor_dst None (VArray (tensor_get tensor_src)), qs') /\
    qs' !!! 5%nat = [].
Proof.
  destruct (Recv_execute_takes_one_value (recv_into tensor_dst) queues_loaded
              tensor_dst (tensor_get tensor_src) [] eq_refl
              ltac:(vm_compute; reflexivity))
    as (call & qs' & E & Hrest & _ & _ & Hcall).
  exists qs'. rewrite <- (Hcall ltac:(discriminate)).
  split; [exact E | exact Hrest].
Defined.

Lemma unit_tensor_data (t : GPUTensor) :
  t_shape t = [] -> well_formed t -> exists v : Q, t_data t = [v].
Proof.
  unfold well_formed. intros -> Hl. simpl in Hl.
  destruct (t_data t) as [| v [| w l]]; simpl in Hl; try lia.
  exists v. reflexivity.
Qed.

(** C6. On a queue that holds no earlier value, executing a bound
    [SendKernel] and then the [RecvKernel] of the same queue, whose
    destination has the shape of the source, leaves a destination whose
    content equals the value sent, in shape and in every element; this holds
    for the shape [()], for one dimension and for any number of
    dimensions.  The queue is empty again afterwards. *)
Theorem Send_Recv_roundtrip (send : SendKernel.obj) (recv : RecvKernel.obj)
    (qs : queues) (src dst : GPUTensor) :
  SendKernel.tensor send = Bound src ->
  RecvKernel.tensor recv = Bound dst ->
  SendKernel.q send = RecvKernel.shared_q (RecvKernel.recv_op recv) ->
  qs !!! SendKernel.q send = [] ->
  t_shape dst = t_shape src ->
  well_formed src ->
  well_formed dst ->
  let x := tensor_get src in
  exists (qs1 qs2 : queues) (call : device_call) (dst' : GPUTensor),
    SendKernel.execute send qs = Ok qs1 /\
    qs1 !!! SendKernel.q send = [x] /\
    RecvKernel.execute recv qs1 = Returns (call, qs2) /\
    perform call = Some dst' /\
    tensor_get dst' = x /\
    a_shape (tensor_get dst') = a_shape x /\
    a_data (tensor_get dst') = a_data x /\
    qs2 !!! SendKernel.q send = [].
Proof.
  intros Hs Hr Hq Hempty Hshape Hsrc Hdst x.
  destruct (q_put_appends qs (SendKernel.q send) x) as [Hput _].
  rewrite Hempty in Hput. simpl in Hput.
  assert (SendKernel.execute send qs = Ok (q_put qs (SendKernel.q send) x)) as Esend.
  { unfold SendKernel.execute. rewrite Hs. reflexivity. }
  rewrite Hq in Hput.
  pose proof (Recv_execute_head recv _ dst x [] Hr Hput) as Erecv.
  rewrite <- Hq in Hput, Erecv.
  set (call := if shape_is_unit (t_shape dst)
               then fill dst (VArray x) else setitem dst None (VArray x)) in Erecv.
  assert (exists dst', perform call = Some dst' /\ tensor_get dst' = x) as (dst' & Hp & Hg).
  { subst call. destruct (t_shape dst) as [| n s] eqn:Ed; simpl.
    - destruct (unit_tensor_data src (eq_sym Hshape) Hsrc) as [v Hv].
      destruct (unit_tensor_data dst Ed Hdst) as [w Hw].
      rewrite Hv, Hw. simpl. eexists. split; [reflexivity |].
      unfold tensor_get. simpl. rewrite Ed, Hshape, <- Hv. reflexivity.
    - rewrite <- Hshape, Ed.
      destruct (decide (n :: s = n :: s)) as [_ | Hne]; [| congruence].
      eexists. split; [reflexivity |].
      unfold tensor_get. simpl. rewrite Ed, Hshape. reflexivity. }
  exists (q_put qs (SendKernel.q send) x),
    (<[SendKernel.q send := []]> (q_put qs (SendKernel.q send) x)), call, dst'.
  rewrite Hg. repeat split; try assumption.
  apply lookup_total_insert_eq.
Qed.

(** From a round trip [H], its queues, call and destination. *)
Ltac deliver H :=
  destruct H as (qs1 & qs2 & call & dst' & E1 & _ & E2 & Hp & Hg & _);
  exists qs1, qs2, call, dst'; repeat split; assumption.

Lemma Send_Recv_roundtrip_witness :
  delivers scalar_src scalar_dst /\
  delivers vector_src vector_dst /\
  delivers tensor_src tensor_dst.
Proof.
  split; [| split].
  - deliver (Send_Recv_roundtrip (send_from scalar_src) (recv_into scalar_dst)
               queues_empty scalar_src scalar_dst
               eq_refl eq_refl eq_refl ltac:(vm_compute; reflexivity)
               eq_refl eq_refl eq_refl).
  - deliver (Send_Recv_roundtrip (send_from vector_src) (recv_into vector_dst)
               queues_empty vector_src vector_dst
               eq_refl eq_refl eq_refl ltac:(vm_compute; reflexivity)
               eq_refl eq_refl eq_refl).
  - deliver (Send_Recv_roundtrip (send_from tensor_src) (recv_into tensor_dst)
               queues_empty tensor_src tensor_dst
               eq_refl eq_refl eq_refl ltac:(vm_compute; reflexivity)
               eq_refl eq_refl eq_refl).
Defined.

(** ** FlexRngFillKernel *)

Section FlexRngFill.
Context `{Runtime}.

Lemma np_dtype_eqb_refl (d : np_dtype) : np_dtype_eqb d d = true.
Proof. destruct d; reflexivity. Qed.


(** Storing an array of the destination's element type converts nothing. *)
Lemma assign_all_astype (dst src : GPUTensor) :
  assign_all dst (astype src (t_dtype dst))
    = with_data dst (map (np_cast (t_dtype dst)) (t_data src)).
Proof.
  unfold assign_all. simpl. rewrite np_dtype_eqb_refl. reflexivity.
Qed.



End FlexRngFill.


(** * Further properties *)

(** ** Parameter lists and the life of a kernel *)

Section Lifecycle.
Context `{Runtime}.

Lemma resolve_settled (p : param) : is_TensorDescription (resolve p) = false.
Proof. destruct p; reflexivity. Qed.

Lemma resolve_idempotent (p : param) : resolve (resolve p) = resolve p.
Proof. destruct p; reflexivity. Qed.

Lemma bind_params_settled (ps : list param) :
  Forall (fun p => is_TensorDescription p = false) (bind_params ps) /\
  bind_params (bind_params ps) = bind_params ps.
Proof.
  rewrite !bind_params_map. split.
  - apply Forall_forall. intros p Hp. apply list_elem_of_fmap in Hp as (p' & -> & _).
    apply resolve_settled.
  - rewrite map_map. apply map_ext. intros p. apply resolve_idempotent.
Qed.

(** X1. After [bind_buffers] the parameter list of a [DimShuffleKernel]
    holds no descriptor, so binding again changes nothing, and neither
    binding changes the call that [execute] issues apart from the
    parameters. *)
Theorem DimShuffle_bind_buffers_settles (self : DimShuffleKernel.obj) :
  let b := DimShuffleKernel.bind_buffers self in
  Forall (fun p => is_TensorDescription p = false) (DimShuffleKernel.params b) /\
  DimShuffleKernel.bind_buffers b = b /\
  DimShuffleKernel.execute (DimShuffleKernel.bind_buffers b)
    = DimShuffleKernel.execute b.
Proof.
  intros b. destruct (bind_params_settled (DimShuffleKernel.params self)) as [Hf Hi].
  assert (DimShuffleKernel.bind_buffers b = b) as E.
  { unfold b, DimShuffleKernel.bind_buffers. simpl. rewrite Hi. reflexivity. }
  split; [exact Hf |]. split; [exact E |]. rewrite E. reflexivity.
Qed.

Lemma resolve_PInt (l : list Z) : map resolve (map PInt l) = map PInt l.
Proof. rewrite map_map. apply map_ext. reflexivity. Qed.

(** X2. A [DimShuffleKernel] constructed from an op with one operand, then
    bound, launches the kernel made for the element type of the output, the
    shape of the input and the op's axes, with that kernel's grid and block,
    on: the address of the output, the address of the input, the kernel's
    own arguments, the input's strides, the output's strides. *)
Theorem DimShuffle_launch (o : DimShuffleKernel.op) (arg : TensorDescription) :
  DimShuffleKernel.call_info o = [arg] ->
  let out := TensorDescriptionWrapper (DimShuffleKernel.tensor_description o) (Some 2%nat) in
  let inp := TensorDescriptionWrapper arg (Some 2%nat) in
  let k := _get_copy_transpose_kernel (w_dtype out) (w_shape inp)
             (DimShuffleKernel.old_axis_positions o) in
  exists self : DimShuffleKernel.obj,
    DimShuffleKernel.__init__ o = Ok self /\
    DimShuffleKernel.execute
      (DimShuffleKernel.bind_flex_scales (DimShuffleKernel.bind_buffers self))
      = prepared_async_call k (k_grid k) (k_block k)
          (PAddress (pointer_from_td (w_td out))
             :: PAddress (pointer_from_td (w_td inp))
             :: map resolve (k_args k)
             ++ map PInt (w_strides inp) ++ map PInt (w_strides out)).
Proof.
  intros Hci out inp k.
  unfold DimShuffleKernel.__init__. rewrite Hci. simpl.
  eexists. split; [reflexivity |].
  unfold DimShuffleKernel.execute, DimShuffleKernel.bind_flex_scales,
    DimShuffleKernel.bind_buffers. simpl.
  rewrite bind_params_map. fold out inp k. simpl.
  rewrite !map_app, !resolve_PInt. reflexivity.
Qed.

(** X3. The constructors take their operands by unpacking: that of
    [DimShuffleKernel] succeeds exactly when the op has one operand, that of
    [SetItemKernel] exactly when it has two, and each raises [ValueError]
    otherwise. *)
Theorem init_operand_count :
  (forall o : DimShuffleKernel.op,
      ((exists self, DimShuffleKernel.__init__ o = Ok self)
         <-> length (DimShuffleKernel.call_info o) = 1%nat) /\
      (length (DimShuffleKernel.call_info o) <> 1%nat ->
         DimShuffleKernel.__init__ o = Raise ValueError)) /\
  (forall o : SetItemKernel.op,
      ((exists self, SetItemKernel.__init__ o = Ok self)
         <-> length (SetItemKernel.call_info o) = 2%nat) /\
      (length (SetItemKernel.call_info o) <> 2%nat ->
         SetItemKernel.__init__ o = Raise ValueError)).
Proof.
  split; intros o.
  - unfold DimShuffleKernel.__init__.
    destruct (DimShuffleKernel.call_info o) as [| a [| b l]]; simpl.
    + split; [split; [intros [? ?]; discriminate | discriminate] | reflexivity].
    + split; [split; [reflexivity | intros _; eauto] | congruence].
    + split; [split; [intros [? ?]; discriminate | discriminate] | reflexivity].
  - unfold SetItemKernel.__init__.
    destruct (SetItemKernel.call_info o) as [| a [| b [| c l]]] eqn:E; simpl.
    + split; [split; [intros [? ?]; discriminate | discriminate] | reflexivity].
    + split; [split; [intros [? ?]; discriminate | discriminate] | reflexivity].
    + split; [| congruence]. split; [reflexivity | intros _].
      destruct (use_copy_transpose_rule a (SetItemKernel.op_item o)) as (c & Hc & _).
      rewrite Hc. simpl. destruct c; eauto.
    + split; [split; [intros [? ?]; discriminate | discriminate] | reflexivity].
Qed.

End Lifecycle.

Lemma DimShuffle_launch_witness :
  exists self : DimShuffleKernel.obj,
    @DimShuffleKernel.__init__ sample_runtime op_transpose = Ok self /\
    @DimShuffleKernel.execute
      (DimShuffleKernel.bind_flex_scales (@DimShuffleKernel.bind_buffers sample_runtime self))
      = prepared_async_call (sample_kernel float32 [2%nat; 3%nat] [1%nat; 0%nat])
          [2%nat; 1%nat; 1%nat] [32%nat; 1%nat; 1%nat]
          [PAddress 5632; PAddress 4864; PInt 2; PInt 3; PInt 1; PInt 2; PInt 1].
Proof.
  destruct (@DimShuffle_launch sample_runtime op_transpose td_plain eq_refl)
    as (self & E & Hx).
  exists self. split; [exact E |]. rewrite Hx. reflexivity.
Defined.

(** ** SetItemKernel, continued *)

Section SetItemMore.
Context `{Runtime}.

Lemma needs_copy_transpose_negative (t : TensorDescription) (it : option slice) :
  needs_copy_transpose t it
    <-> (exists s : Z, s ∈ td_strides t /\ s < 0) /\ it = None.
Proof.
  unfold needs_copy_transpose. split.
  - intros (Hlen & (m & Hm & Hneg) & Hit). split; [| exact Hit].
    destruct (td_strides t) as [| x l]; [simpl in Hlen; lia |].
    destruct (np_min_least x l) as (m' & Hm' & Hin & _).
    rewrite Hm in Hm'. injection Hm' as <-. eauto.
  - intros ((s & Hin & Hneg) & Hit).
    destruct (td_strides t) as [| x l]; [apply elem_of_nil in Hin; contradiction |].
    split; [simpl; lia |]. split; [| exact Hit].
    destruct (np_min_least x l) as (m & Hm & _ & Hall).
    exists m. split; [exact Hm |].
    rewrite Forall_forall in Hall. specialize (Hall s Hin). lia.
Qed.

(** X4. A [SetItemKernel] holds a fallback kernel exactly when some stride
    of the destination is negative and the op gives no index expression; it
    holds a parameter list exactly when it holds a kernel; with an index
    expression it never holds one, whatever the strides. *)
Theorem SetItem_fallback_iff_negative_stride (o : SetItemKernel.op)
    (t v : TensorDescription) (self : SetItemKernel.obj) :
  SetItemKernel.call_info o = [t; v] ->
  SetItemKernel.__init__ o = Ok self ->
  (is_Some (SetItemKernel.kernel self)
     <-> (exists s : Z, s ∈ td_strides t /\ s < 0) /\ SetItemKernel.op_item o = None) /\
  (is_Some (SetItemKernel.kernel self) <-> is_Some (SetItemKernel.params self)) /\
  (SetItemKernel.op_item o <> None -> SetItemKernel.kernel self = None).
Proof.
  intros Hci Hinit.
  destruct (use_copy_transpose_rule t (SetItemKernel.op_item o)) as (c & Hc & Hiff).
  rewrite needs_copy_transpose_negative in Hiff.
  unfold SetItemKernel.__init__ in Hinit. rewrite Hci in Hinit. simpl in Hinit.
  rewrite Hc in Hinit. simpl in Hinit.
  destruct c; injection Hinit as <-; simpl.
  - destruct Hiff as [Hiff _]. specialize (Hiff eq_refl).
    split; [split; [intros _; exact Hiff | intros _; eauto] |].
    split; [split; intros _; eauto |].
    destruct Hiff as [_ Hit]. congruence.
  - split.
    + split; [intros [? ?]; discriminate |].
      intros Hn. apply Hiff in Hn. discriminate.
    + split; [split; intros [? ?]; discriminate | reflexivity].
Qed.

(** X5. When the fallback applies, the constructed and bound
    [SetItemKernel] executes by launching the copy kernel made for the
    destination's element type and shape and the identity order of axes, on
    the address of the destination, then that of the value, the kernel's own
    arguments, the value's strides and the destination's strides; it issues
    neither [fill] nor an assignment. *)
Theorem SetItem_fallback_launch (o : SetItemKernel.op) (t v : TensorDescription) :
  SetItemKernel.call_info o = [t; v] ->
  (exists s : Z, s ∈ td_strides t /\ s < 0) ->
  SetItemKernel.op_item o = None ->
  let src := TensorDescriptionWrapper v None in
  let dst := TensorDescriptionWrapper t None in
  let k := _get_copy_transpose_kernel (td_dtype t) (td_shape t)
             (seq 0 (length (td_shape t))) in
  exists self self' : SetItemKernel.obj,
    SetItemKernel.__init__ o = Ok self /\
    SetItemKernel.bind_buffers self = Ok self' /\
    SetItemKernel.execute self'
      = Ok (prepared_async_call k (k_grid k) (k_block k)
              (PAddress (pointer_from_td (w_td dst))
                 :: PAddress (pointer_from_td (w_td src))
                 :: map resolve (k_args k)
                 ++ map PInt (w_strides src) ++ map PInt (w_strides dst))).
Proof.
  intros Hci Hneg Hit src dst k.
  destruct (use_copy_transpose_rule t (SetItemKernel.op_item o)) as (c & Hc & Hiff).
  assert (c = true) as ->.
  { apply Hiff. apply needs_copy_transpose_negative. split; assumption. }
  unfold SetItemKernel.__init__. rewrite Hci. simpl. rewrite Hc. simpl.
  eexists _, _. split; [reflexivity |].
  unfold SetItemKernel.bind_buffers. simpl. split; [reflexivity |].
  unfold SetItemKernel.execute. simpl.
  rewrite bind_params_map. fold src dst k. simpl.
  rewrite !map_app, !resolve_PInt. reflexivity.
Qed.

(** X6. Every [SetItemKernel] that is constructed can be bound; [execute]
    then finds every attribute it reads and issues its call, and binding
    once more changes nothing. *)
Theorem SetItem_bound_executes (o : SetItemKernel.op) (self : SetItemKernel.obj) :
  SetItemKernel.__init__ o = Ok self ->
  exists (self' : SetItemKernel.obj) (c : device_call),
    SetItemKernel.bind_buffers self = Ok self' /\
    SetItemKernel.bind_buffers self' = Ok self' /\
    SetItemKernel.execute self' = Ok c.
Proof.
  intros Hinit. unfold SetItemKernel.__init__ in Hinit.
  destruct (SetItemKernel.call_info o) as [| t [| v [| w l]]]; simpl in Hinit;
    try discriminate.
  destruct (SetItemKernel.use_copy_transpose (td_strides t) (SetItemKernel.op_item o))
    as [c | e]; simpl in Hinit; [| discriminate].
  destruct c; injection Hinit as <-.
  - unfold SetItemKernel.bind_buffers, SetItemKernel.execute. simpl.
    eexists _, _. split; [reflexivity |]. simpl.
    destruct (bind_params_settled
                (get_dimshuffle (td_dtype t) (td_shape t) (seq 0 (length (td_shape t)))
                   (TensorDescriptionWrapper v None)
                   (TensorDescriptionWrapper t None)).2) as [_ Hi].
    simpl in Hi. rewrite Hi. split; reflexivity.
  - unfold SetItemKernel.bind_buffers, SetItemKernel.execute. simpl.
    exists {| SetItemKernel.tensor := Bound (td_value t);
              SetItemKernel.value := Bound (td_value v);
              SetItemKernel.item := SetItemKernel.op_item o;
              SetItemKernel.kernel := None; SetItemKernel.params := None |}.
    simpl. destruct (shape_is_unit (t_shape (td_value t)));
      eexists; repeat split; reflexivity.
Qed.

End SetItemMore.

Lemma SetItem_fallback_iff_negative_stride_witness :
  exists self : SetItemKernel.obj,
    @SetItemKernel.__init__ sample_runtime op_reversed_sliced = Ok self /\
    SetItemKernel.kernel self = None /\
    -3 ∈ td_strides td_reversed.
Proof.
  exists {| SetItemKernel.tensor := Symbolic td_reversed;
            SetItemKernel.value := Symbolic td_plain;
            SetItemKernel.item := SetItemKernel.op_item op_reversed_sliced;
            SetItemKernel.kernel := None; SetItemKernel.params := None |}.
  split; [reflexivity |].
  split; [| apply list_elem_of_here].
  apply (@SetItem_fallback_iff_negative_stride sample_runtime op_reversed_sliced
           td_reversed td_plain _ eq_refl eq_refl).
  discriminate.
Defined.

Lemma SetItem_fallback_launch_witness :
  exists self' : SetItemKernel.obj,
    @SetItemKernel.bind_buffers sample_runtime reversed_setitem = Ok self' /\
    SetItemKernel.execute self'
      = Ok (prepared_async_call (sample_kernel float32 [2%nat; 3%nat] [0%nat; 1%nat])
              [2%nat; 1%nat; 1%nat] [32%nat; 1%nat; 1%nat]
              [PAddress 4608; PAddress 4864; PInt 2; PInt 3; PInt 1;
               PInt (-3); PInt 1]).
Proof.
  destruct (@SetItem_fallback_launch sample_runtime op_reversed td_reversed td_plain
              eq_refl
              ltac:(exists (-3); split; [apply list_elem_of_here | reflexivity])
              eq_refl)
    as (self & self' & Hinit & Hbind & Hx).
  vm_compute in Hinit. injection Hinit as <-.
  exists self'. split; [exact Hbind | exact Hx].
Defined.

Lemma SetItem_bound_executes_witness :
  exists self' : SetItemKernel.obj,
    @SetItemKernel.bind_buffers sample_runtime unit_setitem = Ok self' /\
    @SetItemKernel.bind_buffers sample_runtime self' = Ok self' /\
    exists c : device_call, SetItemKernel.execute self' = Ok c.
Proof.
  destruct (@SetItem_bound_executes sample_runtime op_unit unit_setitem eq_refl)
    as (self' & c & H1 & H2 & H3).
  exists self'. split; [exact H1 |]. split; [exact H2 |]. exists c. exact H3.
Defined.

(** ** SendKernel and RecvKernel, continued *)

Section Channels.
Context `{Runtime}.

Lemma bind_value_idempotent (s : slot GPUTensor) :
  bind_value (bind_value s) = bind_value s.
Proof. destruct s; reflexivity. Qed.

(** X7. The constructor of [SendKernel] raises [IndexError] on an op
    without arguments and otherwise takes the first argument only; the
    kernel, once bound, puts the content of the tensor allocated for that
    argument at the end of its queue and touches no other queue; binding it
    again changes nothing. *)
Theorem Send_lifecycle (o : SendKernel.op) :
  (SendKernel.args o = [] -> SendKernel.__init__ o = Raise IndexError) /\
  (forall (td : TensorDescription) (rest : list TensorDescription) (qs : queues),
      SendKernel.args o = td :: rest ->
      exists (self : SendKernel.obj) (qs' : queues),
        SendKernel.__init__ o = Ok self /\
        SendKernel.bind_buffers (SendKernel.bind_buffers self)
          = SendKernel.bind_buffers self /\
        SendKernel.execute (SendKernel.bind_buffers self) qs = Ok qs' /\
        qs' !!! SendKernel.shared_q o
          = (qs !!! SendKernel.shared_q o) ++ [tensor_get (td_value td)] /\
        (forall q' : nat, q' <> SendKernel.shared_q o -> qs' !!! q' = qs !!! q')).
Proof.
  split.
  - intros E. unfold SendKernel.__init__. rewrite E. reflexivity.
  - intros td rest qs E. unfold SendKernel.__init__. rewrite E.
    eexists _, _. split; [reflexivity |].
    split; [reflexivity |]. split; [reflexivity |]. simpl.
    apply q_put_appends.
Qed.

(** X8. A bound [RecvKernel] blocks exactly when its queue is empty, and
    otherwise issues its call without raising; the kernel constructed from an
    op and bound is such a kernel, on the tensor allocated for the op's
    descriptor, and binding it again changes nothing. *)
Theorem Recv_blocks_iff_empty :
  (forall (self : RecvKernel.obj) (t : GPUTensor) (qs : queues),
      RecvKernel.tensor self = Bound t ->
      (RecvKernel.execute self qs = Blocks
         <-> qs !!! RecvKernel.shared_q (RecvKernel.recv_op self) = []) /\
      (forall e : exn, RecvKernel.execute self qs <> Raises e)) /\
  (forall o : RecvKernel.op,
      exists self : RecvKernel.obj,
        RecvKernel.__init__ o = Ok self /\
        RecvKernel.tensor (RecvKernel.bind_buffers self)
          = Bound (td_value (RecvKernel.tensor_description o)) /\
        RecvKernel.recv_op (RecvKernel.bind_buffers self) = o /\
        RecvKernel.bind_buffers (RecvKernel.bind_buffers self)
          = RecvKernel.bind_buffers self).
Proof.
  split.
  - intros self t qs Ht.
    destruct (qs !!! RecvKernel.shared_q (RecvKernel.recv_op self)) as [| x rest] eqn:E.
    + rewrite (Recv_execute_blocks_on_empty self qs E).
      split; [split; reflexivity | intros e; discriminate].
    + rewrite (Recv_execute_head self qs t x rest Ht E).
      split; [split; intros ?; discriminate | intros e; discriminate].
  - intros o. eexists. split; [reflexivity |]. repeat split.
Qed.

(** X9. Values leave a queue in the order they entered: when the queue
    holds an earlier value, a send followed by a receive delivers the earlier
    value, not the one just sent, and the one just sent waits behind the
    rest. *)
Theorem Send_Recv_program_order (send : SendKernel.obj) (recv : RecvKernel.obj)
    (qs : queues) (src dst : GPUTensor) (y : ndarray) (pending : list ndarray) :
  SendKernel.tensor send = Bound src ->
  RecvKernel.tensor recv = Bound dst ->
  SendKernel.q send = RecvKernel.shared_q (RecvKernel.recv_op recv) ->
  qs !!! SendKernel.q send = y :: pending ->
  exists (qs1 qs2 : queues) (call : device_call),
    SendKernel.execute send qs = Ok qs1 /\
    RecvKernel.execute recv qs1 = Returns (call, qs2) /\
    call = (if shape_is_unit (t_shape dst)
            then fill dst (VArray y) else setitem dst None (VArray y)) /\
    qs2 !!! SendKernel.q send = pending ++ [tensor_get src].
Proof.
  intros Hs Hr Hq Hpend.
  destruct (q_put_appends qs (SendKernel.q send) (tensor_get src)) as [Hput _].
  rewrite Hpend in Hput. simpl in Hput. rewrite Hq in Hput.
  pose proof (Recv_execute_head recv _ dst y _ Hr Hput) as Erecv.
  rewrite <- Hq in Erecv.
  eexists _, _, _. split; [unfold SendKernel.execute; rewrite Hs; reflexivity |].
  split; [exact Erecv |]. split; [reflexivity |].
  apply lookup_total_insert_eq.
Qed.

(** X10. Kernels on different queues do not interfere: a send on another
    queue neither wakes a blocked receive nor changes what a receive
    delivers, and send and receive may be executed in either order with the
    same queues at the end. *)
Theorem independent_queues_commute (send : SendKernel.obj) (recv : RecvKernel.obj)
    (qs qs1 : queues) (src : GPUTensor) :
  SendKernel.tensor send = Bound src ->
  SendKernel.q send <> RecvKernel.shared_q (RecvKernel.recv_op recv) ->
  SendKernel.execute send qs = Ok qs1 ->
  (RecvKernel.execute recv qs = Blocks -> RecvKernel.execute recv qs1 = Blocks) /\
  (forall (c : device_call) (qs' : queues),
      RecvKernel.execute recv qs = Returns (c, qs') ->
      exists qs2 : queues,
        RecvKernel.execute recv qs1 = Returns (c, qs2) /\
        SendKernel.execute send qs' = Ok qs2).
Proof.
  intros Hs Hne Hsend.
  unfold SendKernel.execute in Hsend. rewrite Hs in Hsend. simpl in Hsend.
  injection Hsend as <-.
  destruct (q_put_appends qs (SendKernel.q send) (tensor_get src)) as [_ Hother].
  specialize (Hother _ (not_eq_sym Hne)).
  unfold RecvKernel.execute, q_get. rewrite Hother.
  destruct (qs !!! RecvKernel.shared_q (RecvKernel.recv_op recv)) as [| x rest].
  - split; [reflexivity | intros c qs' E; discriminate].
  - split; [destruct (RecvKernel.tensor recv) as [td | t];
            [| destruct (shape_is_unit (t_shape t))]; intros ?; discriminate |].
    intros c qs' E.
    assert (SendKernel.execute send
              (<[RecvKernel.shared_q (RecvKernel.recv_op recv) := rest]> qs)
            = Ok (<[RecvKernel.shared_q (RecvKernel.recv_op recv) := rest]>
                    (q_put qs (SendKernel.q send) (tensor_get src)))) as Ecomm.
    { unfold SendKernel.execute. rewrite Hs. simpl. f_equal. unfold q_put.
      rewrite lookup_total_insert_ne by (apply not_eq_sym; exact Hne).
      apply insert_insert_ne. exact Hne. }
    destruct (RecvKernel.tensor recv) as [td | t]; [discriminate |].
    destruct (shape_is_unit (t_shape t)); injection E as <- <-;
      eexists; (split; [reflexivity | exact Ecomm]).
Qed.

End Channels.

Lemma Send_Recv_program_order_witness :
  exists (qs1 qs2 : queues),
    SendKernel.execute (send_from tensor_src) queues_pending = Ok qs1 /\
    RecvKernel.execute (recv_into tensor_dst) qs1
      = Returns (setitem tensor_dst None (VArray (tensor_get tensor_dst)), qs2) /\
    qs2 !!! 5%nat = [tensor_get tensor_src].
Proof.
  destruct (Send_Recv_program_order (send_from tensor_src) (recv_into tensor_dst)
              queues_pending tensor_src tensor_dst (tensor_get tensor_dst) []
              eq_refl eq_refl eq_refl ltac:(vm_compute; reflexivity))
    as (qs1 & qs2 & call & E1 & E2 & -> & Hq).
  exists qs1, qs2. split; [exact E1 |]. split; [exact E2 | exact Hq].
Defined.

Lemma independent_queues_commute_witness :
  exists qs2 : queues,
    RecvKernel.execute (recv_into tensor_dst) queues_both
      = Returns (setitem tensor_dst None (VArray (tensor_get tensor_src)), qs2) /\
    SendKernel.execute (send9_from tensor_src) (<[5%nat := []]> queues_loaded)
      = Ok qs2.
Proof.
  destruct (independent_queues_commute (send9_from tensor_src) (recv_into tensor_dst)
              queues_loaded queues_both tensor_src eq_refl
              ltac:(discriminate) eq_refl) as [_ Hr].
  apply (Hr (setitem tensor_dst None (VArray (tensor_get tensor_src)))
            (<[5%nat := []]> queues_loaded)).
  unfold RecvKernel.execute, q_get. reflexivity.
Defined.

(** ** RngFillKernel, continued *)

Section RngFillMore.
Context `{Runtime}.

Lemma assign_all_same_dtype (dst src : GPUTensor) :
  t_dtype src = t_dtype dst -> assign_all dst src = with_data dst (t_data src).
Proof.
  intros E. unfold assign_all. rewrite E, np_dtype_eqb_refl. reflexivity.
Qed.





End RngFillMore.




(** ** Parameters that are missing *)

Section MissingParameters.
Context `{Runtime}.

(** X13. A bound [RngFillKernel] executes without an error exactly when
    its parameters hold the two keys of its distribution; otherwise it
    raises [KeyError] for the first key it misses, ["high"] before ["low"]
    and ["scale"] before ["loc"].  Keys of the other distribution do not
    help. *)
Theorem RngFill_missing_parameter (self : RngFillKernel.obj) (g : pcg_state)
    (t : GPUTensor) :
  RngFillKernel.out self = Bound t ->
  (RngFillKernel.distribution self = "uniform" ->
     ((exists r, RngFillKernel.execute self g = Ok r)
        <-> is_Some (RngFillKernel.params self !! "high")
            /\ is_Some (RngFillKernel.params self !! "low")) /\
     (RngFillKernel.params self !! "high" = None ->
        RngFillKernel.execute self g = Raise (KeyError "high")) /\
     (is_Some (RngFillKernel.params self !! "high") ->
      RngFillKernel.params self !! "low" = None ->
        RngFillKernel.execute self g = Raise (KeyError "low"))) /\
  (RngFillKernel.distribution self = "normal" ->
     ((exists r, RngFillKernel.execute self g = Ok r)
        <-> is_Some (RngFillKernel.params self !! "scale")
            /\ is_Some (RngFillKernel.params self !! "loc")) /\
     (RngFillKernel.params self !! "scale" = None ->
        RngFillKernel.execute self g = Raise (KeyError "scale")) /\
     (is_Some (RngFillKernel.params self !! "scale") ->
      RngFillKernel.params self !! "loc" = None ->
        RngFillKernel.execute self g = Raise (KeyError "loc"))).
Proof.
  intros Ht. split; intros Hd; unfold RngFillKernel.execute; rewrite Hd, Ht; simpl;
    unfold getitem.
  - destruct (RngFillKernel.params self !! "high") as [high |];
      destruct (RngFillKernel.params self !! "low") as [low |]; simpl.
    + split; [split; [intros _; split; eauto | intros _; eauto] |].
      split; [discriminate | intros _; discriminate].
    + split; [split; [intros [? ?]; discriminate | intros [_ [? ?]]; discriminate] |].
      split; [discriminate | reflexivity].
    + split; [split; [intros [? ?]; discriminate | intros [[? ?] _]; discriminate] |].
      split; [reflexivity | intros [? ?]; discriminate].
    + split; [split; [intros [? ?]; discriminate | intros [[? ?] _]; discriminate] |].
      split; [reflexivity | intros [? ?]; discriminate].
  - destruct (RngFillKernel.params self !! "scale") as [scale |];
      destruct (RngFillKernel.params self !! "loc") as [loc |]; simpl.
    + split; [split; [intros _; split; eauto | intros _; eauto] |].
      split; [discriminate | intros _; discriminate].
    + split; [split; [intros [? ?]; discriminate | intros [_ [? ?]]; discriminate] |].
      split; [discriminate | reflexivity].
    + split; [split; [intros [? ?]; discriminate | intros [[? ?] _]; discriminate] |].
      split; [reflexivity | intros [? ?]; discriminate].
    + split; [split; [intros [? ?]; discriminate | intros [[? ?] _]; discriminate] |].
      split; [reflexivity | intros [? ?]; discriminate].
Qed.

End MissingParameters.

Lemma RngFill_missing_parameter_witness :
  @RngFillKernel.execute sample_runtime rng_no_low 0%nat = Raise (KeyError "low").
Proof.
  destruct (@RngFill_missing_parameter sample_runtime rng_no_low 0%nat tensor_dst eq_refl)
    as [Hu _].
  destruct (Hu eq_refl) as (_ & _ & Hlow).
  apply Hlow; [exists 3%Q | ]; vm_compute; reflexivity.
Defined.

(** Closes a statement about [Ok] and [Raise] once every lookup is
    decided. *)
Ltac settle :=
  unfold is_Some; repeat split; intros;
  repeat match goal with
         | E : exists _, _ |- _ => destruct E
         | E : _ /\ _ |- _ => destruct E
         end;
  try discriminate; eauto.

Section FlexRngFillMore.
Context `{Runtime}.

(** X14. A bound [FlexRngFillKernel] for the uniform or the normal
    distribution executes without an error exactly when its parameters hold
    the two keys of the distribution and [bind_flex_scales] has set the
    scale.  A missing key raises [KeyError] whether or not the scale is set;
    with both keys and no scale the error is the missing attribute. *)
Theorem FlexRngFill_executes_iff (self : FlexRngFillKernel.obj) (g : pcg_state)
    (t : GPUTensor) (k1 k2 : string) :
  FlexRngFillKernel.out self = Bound t ->
  (FlexRngFillKernel.distribution self = "uniform" /\ k1 = "high" /\ k2 = "low") \/
  (FlexRngFillKernel.distribution self = "normal" /\ k1 = "scale" /\ k2 = "loc") ->
  ((exists r, FlexRngFillKernel.execute self g = Ok r)
     <-> is_Some (FlexRngFillKernel.params self !! k1)
         /\ is_Some (FlexRngFillKernel.params self !! k2)
         /\ is_Some (FlexRngFillKernel.scale self)) /\
  (FlexRngFillKernel.params self !! k1 = None ->
     FlexRngFillKernel.execute self g = Raise (KeyError k1)) /\
  (is_Some (FlexRngFillKernel.params self !! k1) ->
   FlexRngFillKernel.params self !! k2 = None ->
     FlexRngFillKernel.execute self g = Raise (KeyError k2)) /\
  (is_Some (FlexRngFillKernel.params self !! k1) ->
   is_Some (FlexRngFillKernel.params self !! k2) ->
   FlexRngFillKernel.scale self = None ->
     FlexRngFillKernel.execute self g = Raise (AttributeError "scale")).
Proof.
  intros Ht [(Hd & -> & ->) | (Hd & -> & ->)];
    unfold FlexRngFillKernel.execute, FlexRngFillKernel.get_scale, getitem;
    rewrite Hd, Ht; simpl.
  - destruct (FlexRngFillKernel.params self !! "high") as [high |];
      destruct (FlexRngFillKernel.params self !! "low") as [low |];
      destruct (FlexRngFillKernel.scale self) as [s |]; simpl; settle.
  - destruct (FlexRngFillKernel.params self !! "scale") as [scale |];
      destruct (FlexRngFillKernel.params self !! "loc") as [loc |];
      destruct (FlexRngFillKernel.scale self) as [s |]; simpl; settle.
Qed.

End FlexRngFillMore.

Lemma FlexRngFill_executes_iff_witness :
  @FlexRngFillKernel.execute sample_runtime rng_unscaled8 0%nat
    = Raise (AttributeError "scale").
Proof.
  destruct (@FlexRngFill_executes_iff sample_runtime rng_unscaled8 0%nat tensor8
              "high" "low" eq_refl
              ltac:(left; split; [reflexivity | split; reflexivity]))
    as (_ & _ & _ & Hs).
  apply Hs; [exists 1%Q | exists 0%Q |]; vm_compute; reflexivity.
Defined.

(** ** What the random kernels keep, and how the two relate *)

Section RandomKernels.
Context `{Runtime}.



(** X15. Whatever the distribution, an execution of an [RngFillKernel] or
    a [FlexRngFillKernel] that returns keeps the shape, the element type, the
    strides and the number of elements of the destination, and changes no
    other attribute of the kernel. *)
Theorem random_execute_keeps_layout :
  (forall (self self' : RngFillKernel.obj) (g g' : pcg_state) (t : GPUTensor),
      RngFillKernel.out self = Bound t ->
      RngFillKernel.execute self g = Ok (self', g') ->
      exists t' : GPUTensor,
        self' = RngFillKernel.set_out self t' /\ same_layout t t') /\
  (forall (self self' : FlexRngFillKernel.obj) (g g' : pcg_state) (t : GPUTensor),
      FlexRngFillKernel.out self = Bound t ->
      FlexRngFillKernel.execute self g = Ok (self', g') ->
      exists t' : GPUTensor,
        self' = FlexRngFillKernel.set_out self t' /\ same_layout t t').
Proof.
  split; intros self self' g g' t Ht Hx.
  - unfold RngFillKernel.execute, getitem in Hx. rewrite Ht in Hx. simpl in Hx.
    destruct (String.eqb (RngFillKernel.distribution self) "uniform").
    + destruct (RngFillKernel.params self !! "high"); [| discriminate].
      destruct (RngFillKernel.params self !! "low"); [| discriminate].
      simpl in Hx. rewrite assign_all_same_dtype in Hx by reflexivity.
      injection Hx as <- <-. eexists. split; [reflexivity |].
      repeat split. simpl. rewrite !length_map, length_seq. reflexivity.
    + destruct (String.eqb (RngFillKernel.distribution self) "normal").
      * destruct (RngFillKernel.params self !! "scale"); [| discriminate].
        destruct (RngFillKernel.params self !! "loc"); [| discriminate].
        simpl in Hx. rewrite assign_all_same_dtype in Hx by reflexivity.
        injection Hx as <- <-. eexists. split; [reflexivity |].
        repeat split. simpl. rewrite !length_map, length_seq. reflexivity.
      * injection Hx as <- <-. exists t. split.
        -- destruct self; simpl in *; subst; reflexivity.
        -- repeat split.
  - unfold FlexRngFillKernel.execute, FlexRngFillKernel.get_scale, getitem in Hx.
    rewrite Ht in Hx. simpl in Hx.
    destruct (String.eqb (FlexRngFillKernel.distribution self) "uniform").
    + destruct (FlexRngFillKernel.params self !! "high"); [| discriminate].
      destruct (FlexRngFillKernel.params self !! "low"); [| discriminate].
      destruct (FlexRngFillKernel.scale self); [| discriminate].
      simpl in Hx. rewrite assign_all_astype in Hx.
      injection Hx as <- <-. eexists. split; [reflexivity |].
      repeat split. simpl. rewrite !length_map, length_seq. reflexivity.
    + destruct (String.eqb (FlexRngFillKernel.distribution self) "normal").
      * destruct (FlexRngFillKernel.params self !! "scale"); [| discriminate].
        destruct (FlexRngFillKernel.params self !! "loc"); [| discriminate].
        destruct (FlexRngFillKernel.scale self); [| discriminate].
        simpl in Hx. rewrite assign_all_astype in Hx.
        injection Hx as <- <-. eexists. split; [reflexivity |].
        repeat split. simpl. rewrite !length_map, length_seq. reflexivity.
      * injection Hx as <- <-. exists t. split.
        -- destruct self; simpl in *; subst; reflexivity.
        -- repeat split.
Qed.

End RandomKernels.

Section FlexOverPlain.
Context `{Runtime}.


End FlexOverPlain.


(** ** FlexFillKernel, continued *)

Lemma store_clipped_bound (self : FlexFillKernel.obj) (t : GPUTensor) (val : Z) :
  FlexFillKernel.tensor self = Bound t ->
  let p := pclip (fe_dtype (FlexFillKernel.flex_entry self)) in
  let n := nclip (fe_dtype (FlexFillKernel.flex_entry self)) in
  FlexFillKernel.store_clipped self val
    = Ok (FlexFillKernel.set_maxabs self (reported_maxabs n p val),
          fill t (VNum (inject_Z (stored_value n p val)))).
Proof.
  intros Ht p n. unfold FlexFillKernel.store_clipped, stored_value, reported_maxabs.
  rewrite Ht. fold p n. rewrite !py_int_inject_Z. unfold py_abs.
  destruct (p <? val); [reflexivity |]. destruct (val <? n); reflexivity.
Qed.

Lemma stored_value_clip (n p val : Z) :
  n <= p -> stored_value n p val = clip_into n p val.
Proof.
  intros Hnp. unfold stored_value, clip_into.
  destruct (Z.ltb_spec p val); [lia |]. destruct (Z.ltb_spec val n); lia.
Qed.

Lemma reported_maxabs_abs (n p val : Z) :
  0 <= p -> reported_maxabs n p val = Z.abs (stored_value n p val).
Proof.
  intros Hp. unfold stored_value, reported_maxabs.
  destruct (p <? val); [lia |]. destruct (val <? n); reflexivity.
Qed.


(** X18. A [FlexFillKernel] reports as [maxabs] the magnitude of what it
    stored: whenever [execute] returns, with clip bounds [nclip <= pclip] and
    [0 <= pclip], it has issued one [fill] of the bound tensor with the
    quantized value clipped between the bounds, [maxabs] is the absolute
    value of that stored value and is at most the larger magnitude of the
    two bounds, and no other attribute of the kernel has changed. *)
Theorem FlexFill_maxabs_is_stored_magnitude (self self' : FlexFillKernel.obj)
    (c : device_call) :
  FlexFillKernel.execute self = Ok (self', c) ->
  nclip (fe_dtype (FlexFillKernel.flex_entry self))
    <= pclip (fe_dtype (FlexFillKernel.flex_entry self)) ->
  0 <= pclip (fe_dtype (FlexFillKernel.flex_entry self)) ->
  let p := pclip (fe_dtype (FlexFillKernel.flex_entry self)) in
  let n := nclip (fe_dtype (FlexFillKernel.flex_entry self)) in
  exists (t : GPUTensor) (stored : Z),
    FlexFillKernel.tensor self = Bound t /\
    c = fill t (VNum (inject_Z stored)) /\
    n <= stored <= p /\
    self' = FlexFillKernel.set_maxabs self (Z.abs stored) /\
    Z.abs stored <= Z.max p (Z.abs n).
Proof.
  intros Hx Hnp Hp p n.
  unfold FlexFillKernel.execute in Hx.
  destruct (FlexFillKernel.quantize self) as [val | e]; simpl in Hx; [| discriminate].
  destruct (FlexFillKernel.tensor self) as [td | t] eqn:Ht.
  - unfold FlexFillKernel.store_clipped in Hx. rewrite Ht in Hx. simpl in Hx.
    destruct (_ <? _); [discriminate |]. destruct (_ <? _); discriminate.
  - rewrite (store_clipped_bound self t val Ht) in Hx. fold p n in Hx.
    injection Hx as <- <-.
    exists t, (stored_value n p val).
    rewrite (reported_maxabs_abs n p val Hp), (stored_value_clip n p val Hnp).
    split; [reflexivity |]. split; [reflexivity |].
    unfold clip_into. repeat split; lia.
Qed.


Lemma FlexFill_maxabs_is_stored_magnitude_witness :
  exists t : GPUTensor,
    FlexFillKernel.execute (flex_fill 100 (Some (1 # 2)))
      = Ok (FlexFillKernel.set_maxabs (flex_fill 100 (Some (1 # 2))) 127,
            fill t (VNum 127)).
Proof.
  destruct (FlexFill_maxabs_is_stored_magnitude
              (flex_fill 100 (Some (1 # 2)))
              (FlexFillKernel.set_maxabs (flex_fill 100 (Some (1 # 2))) 127)
              (fill tensor8 (VNum 127))
              eq_refl ltac:(simpl; lia) ltac:(simpl; lia))
    as (t & stored & _ & _ & _ & _ & _).
  exists tensor8. reflexivity.
Defined.





(** X20. Executing a [FlexFillKernel] again repeats the first execution:
    the kernel it returns executes to itself and the same call. *)
Theorem FlexFill_execute_repeats (self self' : FlexFillKernel.obj)
    (c : device_call) :
  FlexFillKernel.execute self = Ok (self', c) ->
  FlexFillKernel.execute self' = Ok (self', c).
Proof.
  intros Hx. unfold FlexFillKernel.execute in *.
  destruct (FlexFillKernel.quantize self) as [val | e] eqn:Hq; simpl in Hx;
    [| discriminate].
  assert (FlexFillKernel.store_clipped self val = Ok (self', c)) as Hst by exact Hx.
  unfold FlexFillKernel.store_clipped in Hx.
  assert (forall m, FlexFillKernel.quantize (FlexFillKernel.set_maxabs self m)
                    = Ok val) as Hq'.
  { intros m. exact Hq. }
  assert (forall m, FlexFillKernel.store_clipped (FlexFillKernel.set_maxabs self m) val
                    = (r ← FlexFillKernel.store_clipped self val;
                       Ok (FlexFillKernel.set_maxabs (FlexFillKernel.set_maxabs self m)
                             match FlexFillKernel.maxabs r.1 with
                             | Some m' => m'
                             | None => 0
                             end, r.2))) as Hst'.
  { intros m. unfold FlexFillKernel.store_clipped. simpl.
    destruct (_ <? _); [| destruct (_ <? _)];
      destruct (FlexFillKernel.tensor self); reflexivity. }
  destruct (pclip (fe_dtype (FlexFillKernel.flex_entry self)) <? val).
  - destruct (FlexFillKernel.tensor self); simpl in Hx; [discriminate |].
    injection Hx as <- <-. rewrite Hq'. simpl. rewrite Hst', Hst. reflexivity.
  - destruct (val <? nclip (fe_dtype (FlexFillKernel.flex_entry self))).
    + destruct (FlexFillKernel.tensor self); simpl in Hx; [discriminate |].
      injection Hx as <- <-. rewrite Hq'. simpl. rewrite Hst', Hst. reflexivity.
    + destruct (FlexFillKernel.tensor self); simpl in Hx; [discriminate |].
      injection Hx as <- <-. rewrite Hq'. simpl. rewrite Hst', Hst. reflexivity.
Qed.

Lemma FlexFill_execute_repeats_witness :
  FlexFillKernel.execute
    (FlexFillKernel.set_maxabs (flex_fill 100 (Some (1 # 2))) 127)
    = Ok (FlexFillKernel.set_maxabs (flex_fill 100 (Some (1 # 2))) 127,
          fill tensor8 (VNum 127)).
Proof.
  apply (FlexFill_execute_repeats (flex_fill 100 (Some (1 # 2)))). reflexivity.
Defined.

(** ** From construction to execution *)

Section Construction.
Context `{Runtime}.


(** X22. A [FillKernel] constructed for a descriptor and bound fills the
    tensor allocated for the descriptor with its value: after the call every
    element reads as the value, whatever the tensor held, and the shape is
    kept; executing again issues the same call. *)
Theorem Fill_lifecycle (td : TensorDescription) (v : Q) :
  exists (k0 k1 : FillKernel.obj) (t' : GPUTensor),
    FillKernel.__init__ td v = Ok k0 /\
    FillKernel.bind_buffers k0 = Ok k1 /\
    FillKernel.execute k1 = Ok (fill (td_value td) (VNum v)) /\
    perform (fill (td_value td) (VNum v)) = Some t' /\
    a_shape (tensor_get t') = t_shape (td_value td) /\
    length (a_data (tensor_get t')) = length (t_data (td_value td)) /\
    Forall (fun x => x = v) (a_data (tensor_get t')).
Proof.
  eexists _, _, _. split; [reflexivity |]. split; [reflexivity |].
  split; [reflexivity |]. split; [reflexivity |]. simpl.
  split; [reflexivity |]. split; [apply length_replicate |].
  apply Forall_replicate. reflexivity.
Qed.

End Construction.


Section RandomConstruction.
Context `{Runtime}.


End RandomConstruction.

